(** * Reversao Pro: Bollinger bands, the 1h and 5m detectors, the
      confirmation step and the Telegram alert gate of [bot_reversao.py]

    The Python program works on [float] (IEEE binary64) prices.  The
    embedding is written once over a small numeric interface [Numero] and
    used at two instances:
    - [float]: Rocq's primitive binary64 floats, bit for bit the numbers of
      Python and numpy (NaN, signed zeros, infinities, rounding to nearest
      even);
    - [R]: exact real arithmetic, used only to state the algebraic content
      of the band formulas with rounding left out.

    Exceptions are values of [result]; mutable state of [TelegramAlerta] is
    threaded through a small state-and-exception monad. *)

From Stdlib Require Import ZArith List String Ascii Bool Lia.
From Stdlib Require Import Uint63 Floats.
From Stdlib Require Import Reals Lra.
From stdpp Require Import base gmap sets strings.
Import ListNotations.

(** ** Python exceptions and results *)

Inductive exn : Type :=
| IndexError
| ZeroDivisionError
| ValueError
| TelegramError
| OtherError.

(** A value, or the exception raised instead of it. *)
Inductive result (A : Type) : Type :=
| Ok (a : A)
| Raise (e : exn).
Arguments Ok {A} a.
Arguments Raise {A} e.

Definition rbind {A B} (m : result A) (k : A -> result B) : result B :=
  match m with
  | Ok a => k a
  | Raise e => Raise e
  end.

#[export] Instance result_ret : MRet result := fun A a => Ok a.
#[export] Instance result_bind : MBind result := fun A B k m => rbind m k.

(** [[f x for x in l]] where [f] may raise: the first exception wins. *)
Fixpoint rmap {A B} (f : A -> result B) (l : list A) : result (list B) :=
  match l with
  | [] => Ok []
  | x :: t => y ← f x; ys ← rmap f t; Ok (y :: ys)
  end.

(** ** Python sequence operations *)

Section PySeq.
Context {A : Type}.

(** [l[i]] with Python's negative indices; out of range is [IndexError]. *)
Definition py_index (l : list A) (i : Z) : result A :=
  let n := Z.of_nat (length l) in
  let j := if (i <? 0)%Z then (n + i)%Z else i in
  if ((j <? 0) || (n <=? j))%Z then Raise IndexError
  else match l !! Z.to_nat j with
       | Some x => Ok x
       | None => Raise IndexError
       end.

(** [l[-k:]] for [k > 0]: the last [k] elements, or all of [l]. *)
Definition py_slice_last (k : nat) (l : list A) : list A :=
  skipn (length l - k) l.

(** [l[k:]] for [k >= 0]. *)
Definition py_slice_from (k : nat) (l : list A) : list A :=
  skipn k l.

(** [l[i:j]] for [0 <= i <= j]. *)
Definition py_slice (i j : nat) (l : list A) : list A :=
  firstn (j - i) (skipn i l).
End PySeq.

(** Elementwise binary operation of two numpy arrays of one shape. *)
Fixpoint np_map2 {A B C} (f : A -> B -> C) (l1 : list A) (l2 : list B) : list C :=
  match l1, l2 with
  | x :: t1, y :: t2 => f x y :: np_map2 f t1 t2
  | _, _ => []
  end.

(** ** The numeric interface *)

Class Numero (F : Type) : Type := {
  nadd : F -> F -> F;
  nsub : F -> F -> F;
  nmul : F -> F -> F;
  ndiv : F -> F -> F;        (* IEEE/numpy division: no exception *)
  nsqrt : F -> F;
  nabs : F -> F;
  nltb : F -> F -> bool;     (* [x < y]; false when either is NaN *)
  neqb : F -> F -> bool;     (* [x == y] *)
  of_Z : Z -> F              (* [float(n)] of a Python int *)
}.

Infix "⊕" := nadd (at level 50, left associativity).
Infix "⊖" := nsub (at level 50, left associativity).
Infix "⊗" := nmul (at level 40, left associativity).
Infix "⊘" := ndiv (at level 40, left associativity).
Infix "<." := nltb (at level 70, no associativity).
Infix "==." := neqb (at level 70, no associativity).

(** Rocq binary64 floats.  [float(n)] is exact below [2^53], which covers
    every length and literal of the program. *)
Definition float_of_Z (z : Z) : float :=
  match z with
  | Z0 => PrimFloat.zero
  | Zpos _ => PrimFloat.of_uint63 (Uint63.of_Z z)
  | Zneg p => PrimFloat.opp (PrimFloat.of_uint63 (Uint63.of_Z (Zpos p)))
  end.

#[export] Instance float_Numero : Numero float := {
  nadd := PrimFloat.add;
  nsub := PrimFloat.sub;
  nmul := PrimFloat.mul;
  ndiv := PrimFloat.div;
  nsqrt := PrimFloat.sqrt;
  nabs := PrimFloat.abs;
  nltb := PrimFloat.ltb;
  neqb := PrimFloat.eqb;
  of_Z := float_of_Z
}.

(** Exact reals. *)
#[export] Instance R_Numero : Numero R := {
  nadd := Rplus;
  nsub := Rminus;
  nmul := Rmult;
  ndiv := Rdiv;
  nsqrt := sqrt;
  nabs := Rabs;
  nltb := fun x y => if Rlt_dec x y then true else false;
  neqb := fun x y => if Req_dec_T x y then true else false;
  of_Z := IZR
}.

Section Modelo.
Context {F : Type} {num : Numero F}.

(** A decimal literal of the source: [dec 1005 1000] is [1.005].  On
    [float] the correctly rounded quotient of two exactly represented
    integers is the binary64 value Python reads the literal as. *)
Definition dec (n d : Z) : F := of_Z n ⊘ of_Z d.

(** Python's [x / y] on two Python floats raises on a zero divisor. *)
Definition py_truediv (x y : F) : result F :=
  if y ==. of_Z 0 then Raise ZeroDivisionError else Ok (x ⊘ y).

(** *** numpy reductions

    Sums run left to right from [0.0].  numpy's own order of additions
    (pairwise blocks, BLAS dot products) is not part of the program and
    matters only where a partial sum is rounded: the float series
    evaluated in the theorems of the claims have sums that are exact in
    every order, or fewer than eight terms, which numpy also adds left to
    right; the one remark that depends on the order says so. *)
Definition np_sum (xs : list F) : F := fold_left nadd xs (of_Z 0).

(** [np.mean(xs)]. *)
Definition np_mean (xs : list F) : F :=
  np_sum xs ⊘ of_Z (Z.of_nat (length xs)).

(** [np.std(xs)], [ddof = 0]: [sqrt(mean((x - mean(xs))**2))]. *)
Definition np_std (xs : list F) : F :=
  let m := np_mean xs in
  nsqrt (np_mean (map (fun x => (x ⊖ m) ⊗ (x ⊖ m)) xs)).

(** [np.ones(n) / n]. *)
Definition np_ones_div (n : nat) : list F :=
  repeat (of_Z 1 ⊘ of_Z (Z.of_nat n)) n.

(** [np.convolve(a, v, mode='valid')] for [len(v) <= len(a)]:
    [out[i] = sum_j a[i+j] * v[len(v)-1-j]]; an empty operand is a
    [ValueError]. *)
Definition np_convolve_valid (a v : list F) : result (list F) :=
  match a, v with
  | [], _ | _, [] => Raise ValueError
  | _, _ =>
    Ok (map (fun i => np_sum (np_map2 nmul (py_slice i (i + length v) a) (rev v)))
            (seq 0 (length a - length v + 1)))
  end.

(** *** Candles and band sets *)

(** One kline of the Binance response, fields [0] to [6], prices already
    read by [float(...)] and times by [int(...)]. *)
Record Candle : Type := {
  k_open_time : Z;
  k_open : F;
  k_high : F;
  k_low : F;
  k_close : F;
  k_volume : F;
  k_close_time : Z
}.

(** The dictionary [calcular] returns. *)
Record BandSet : Type := {
  superior : list F;
  media : list F;
  inferior : list F;
  percent_b : list F;
  periodo : nat;
  desvios : F
}.

(** *** [BollingerBands.calcular] *)
Definition calcular (candles : list Candle) (periodo : nat) (desvios : F)
  : result (option BandSet) :=
  if length candles <? periodo then Ok None
  else
    let closes := map k_close candles in
    sma ← np_convolve_valid closes (np_ones_div periodo);
    let std := map (fun i => np_std (py_slice i (i + periodo) closes))
                   (seq 0 (length closes - periodo + 1)) in
    let superior := np_map2 nadd sma (map (nmul desvios) std) in
    let inferior := np_map2 nsub sma (map (nmul desvios) std) in
    let percent_b :=
      np_map2 ndiv (np_map2 nsub (py_slice_from (periodo - 1) closes) inferior)
                   (np_map2 nsub superior inferior) in
    Ok (Some {| superior := superior; media := sma; inferior := inferior;
                percent_b := percent_b; periodo := periodo;
                desvios := desvios |}).

(** *** Classifications and signals

    The [tipo], [acao] and [confianca] entries of the dictionaries take
    only the string values written in the source. *)

Inductive TipoZona : Type := resistencia | suporte.
Inductive TipoEntrada : Type := lateralizacao_superior | lateralizacao_inferior.
Inductive Acao : Type := VENDA | COMPRA.
Inductive Confianca : Type := ALTA | MEDIA.

(** The dictionary [detectar_contexto_1h] returns. *)
Record ContextZone : Type := {
  cz_tipo : TipoZona;
  cz_preco_zona : F;
  cz_preco_atual : F;
  cz_forca_volume : F;
  cz_timestamp : Z;
  cz_timeframe : string
}.

(** The dictionary [detectar_entrada_5m] returns. *)
Record EntryEvent : Type := {
  ee_tipo : TipoEntrada;
  ee_percent_b : F;
  ee_amplitude_media : F;
  ee_preco_atual : F;
  ee_timestamp : Z;
  ee_timeframe : string
}.

(** The dictionary [confirmar_sinal] returns. *)
Record Signal : Type := {
  acao : Acao;
  symbol : string;
  preco_entrada : F;
  preco_zona : F;
  risco_percentual : F;
  forca_volume : F;
  timestamp : string;          (* [strftime('%d/%m %H:%M:%S')] *)
  timeframe_contexto : string;
  timeframe_entrada : string;
  confianca : Confianca
}.

(** *** [DetectorReversao.detectar_contexto_1h] *)
Definition detectar_contexto_1h (klines_1h : list Candle)
  : result (option ContextZone) :=
  if length klines_1h <? 25 then Ok None
  else
    let ultimos := py_slice_last 5 klines_1h in
    atual ← py_index ultimos (-1);
    let maxima_atual := k_high atual in
    let minima_atual := k_low atual in
    let fechamento_atual := k_close atual in
    let volume_atual := k_volume atual in
    anterior ← py_index ultimos (-2);
    let maxima_anterior := k_high anterior in
    let minima_anterior := k_low anterior in
    let volumes_20 := map k_volume (py_slice_last 20 klines_1h) in
    let volume_medio := np_mean volumes_20 in
    let forca_volume := volume_atual ⊘ volume_medio in
    if (maxima_anterior ⊗ dec 1005 1000 <. maxima_atual)
       && (fechamento_atual <. maxima_atual ⊗ dec 995 1000)
       && (dec 12 10 <. forca_volume)
    then Ok (Some {| cz_tipo := resistencia;
                     cz_preco_zona := maxima_atual;
                     cz_preco_atual := fechamento_atual;
                     cz_forca_volume := forca_volume;
                     cz_timestamp := k_open_time atual;
                     cz_timeframe := "1h" |})
    else if (minima_atual <. minima_anterior ⊗ dec 995 1000)
            && (minima_atual ⊗ dec 1005 1000 <. fechamento_atual)
            && (dec 12 10 <. forca_volume)
    then Ok (Some {| cz_tipo := suporte;
                     cz_preco_zona := minima_atual;
                     cz_preco_atual := fechamento_atual;
                     cz_forca_volume := forca_volume;
                     cz_timestamp := k_open_time atual;
                     cz_timeframe := "1h" |})
    else Ok None.

(** The body of the loop [for i in range(-4, -1)]. *)
Definition amplitude (klines_5m : list Candle) (i : Z) : result F :=
  k ← py_index klines_5m i;
  let high := k_high k in
  let low := k_low k in
  let open_price := k_open k in
  py_truediv (high ⊖ low) open_price.

(** *** [DetectorReversao.detectar_entrada_5m] *)
Definition detectar_entrada_5m (klines_5m : list Candle) (bb : option BandSet)
  : result (option EntryEvent) :=
  match length klines_5m <? 15, bb with
  | true, _ | _, None => Ok None
  | false, Some bb =>
      percent_b ← py_index (percent_b bb) (-2);
      amplitudes ← rmap (amplitude klines_5m) [-4; -3; -2]%Z;
      let amplitude_media := np_mean amplitudes in
      if (dec 95 100 <. percent_b) && (amplitude_media <. dec 3 1000)
      then
        fechado ← py_index klines_5m (-2);
        Ok (Some {| ee_tipo := lateralizacao_superior;
                    ee_percent_b := percent_b;
                    ee_amplitude_media := amplitude_media;
                    ee_preco_atual := k_close fechado;
                    ee_timestamp := k_open_time fechado;
                    ee_timeframe := "5m" |})
      else if (percent_b <. dec 5 100) && (amplitude_media <. dec 3 1000)
      then
        fechado ← py_index klines_5m (-2);
        Ok (Some {| ee_tipo := lateralizacao_inferior;
                    ee_percent_b := percent_b;
                    ee_amplitude_media := amplitude_media;
                    ee_preco_atual := k_close fechado;
                    ee_timestamp := k_open_time fechado;
                    ee_timeframe := "5m" |})
      else Ok None
  end.

(** ['ALTA' if contexto['forca_volume'] > 1.5 else 'MEDIA']. *)
Definition confianca_de (forca_volume : F) : Confianca :=
  if dec 15 10 <. forca_volume then ALTA else MEDIA.

(** Step 6 of [confirmar_sinal] (source lines 373 to 428): the alignment
    test on the two classifications already found. *)
Definition confirmar_alinhamento (symbol agora : string)
    (contexto : ContextZone) (entrada : EntryEvent) : result (option Signal) :=
  match cz_tipo contexto, ee_tipo entrada with
  | resistencia, lateralizacao_superior =>
    risco ← py_truediv (cz_preco_zona contexto ⊖ ee_preco_atual entrada)
                        (cz_preco_zona contexto);
    Ok (Some {| acao := VENDA;
                symbol := symbol;
                preco_entrada := ee_preco_atual entrada;
                preco_zona := cz_preco_zona contexto;
                risco_percentual := nabs risco ⊗ of_Z 100;
                forca_volume := cz_forca_volume contexto;
                timestamp := agora;
                timeframe_contexto := "1h";
                timeframe_entrada := "5m";
                confianca := confianca_de (cz_forca_volume contexto) |})
  | suporte, lateralizacao_inferior =>
    risco ← py_truediv (ee_preco_atual entrada ⊖ cz_preco_zona contexto)
                        (cz_preco_zona contexto);
    Ok (Some {| acao := COMPRA;
                symbol := symbol;
                preco_entrada := ee_preco_atual entrada;
                preco_zona := cz_preco_zona contexto;
                risco_percentual := nabs risco ⊗ of_Z 100;
                forca_volume := cz_forca_volume contexto;
                timestamp := agora;
                timeframe_contexto := "1h";
                timeframe_entrada := "5m";
                confianca := confianca_de (cz_forca_volume contexto) |})
  | _, _ => Ok None
  end.

(** Steps 4 to 6 on the classifications: an absent one ends the
    confirmation before the alignment test. *)
Definition confirmar_classificacoes (symbol agora : string)
    (contexto : option ContextZone) (entrada : option EntryEvent)
  : result (option Signal) :=
  match contexto, entrada with
  | Some contexto, Some entrada =>
    confirmar_alinhamento symbol agora contexto entrada
  | _, _ => Ok None
  end.

(** *** [DetectorReversao.confirmar_sinal]

    [obter_klines] is the market-data collaborator and [agora] the text of
    [datetime.now().strftime('%d/%m %H:%M:%S')].  [if not klines] holds
    for [None] and for the empty list. *)
Definition confirmar_sinal
    (obter_klines : string -> string -> nat -> option (list Candle))
    (agora : string) (symbol : string) : result (option Signal) :=
  match obter_klines symbol "1h" 50 with
  | None | Some [] => Ok None
  | Some klines_1h =>
    match obter_klines symbol "5m" 50 with
    | None | Some [] => Ok None
    | Some klines_5m =>
      bb_5m ← calcular klines_5m 20 (of_Z 2);
      match bb_5m with
      | None => Ok None
      | Some _ =>
        contexto ← detectar_contexto_1h klines_1h;
        match contexto with
        | None => Ok None
        | Some _ =>
          entrada ← detectar_entrada_5m klines_5m bb_5m;
          confirmar_classificacoes symbol agora contexto entrada
        end
      end
    end
  end.
End Modelo.

Arguments Candle F : clear implicits.
Arguments BandSet F : clear implicits.
Arguments ContextZone F : clear implicits.
Arguments EntryEvent F : clear implicits.
Arguments Signal F : clear implicits.

(** ** [TelegramAlerta]

    The object's set [alertas_enviados], the chat it writes to and the file
    [historico_sinais.log] form the state; a call may raise inside its
    [try] block and keeps the effects made before the exception. *)

Definition Prog (S A : Type) : Type := S -> result A * S.

#[export] Instance prog_ret {S} : MRet (Prog S) := fun A a s => (Ok a, s).
#[export] Instance prog_bind {S} : MBind (Prog S) := fun A B k m s =>
  match m s with
  | (Ok a, s') => k a s'
  | (Raise e, s') => (Raise e, s')
  end.

Definition levantar {S A} (e : exn) : Prog S A := fun s => (Raise e, s).
Definition modificar {S} (f : S -> S) : Prog S unit := fun s => (Ok tt, f s).

(** [try: m  except Exception as e: return h e]. *)
Definition tentar {S A} (m : Prog S A) (h : exn -> A) : S -> A * S := fun s =>
  match m s with
  | (Ok a, s') => (a, s')
  | (Raise e, s') => (h e, s')
  end.

Section Alerta.
Context {F : Type}.

(** The secret [CHAT_ID] as [if not CHAT_ID] and [int(CHAT_ID)] read it. *)
Inductive ChatId : Type :=
| chat_ausente                 (* unset or empty: [ValueError] is raised *)
| chat_invalido                (* not an integer: [int] raises [ValueError] *)
| chat_de (n : Z).

(** What the world answers during one call of [enviar_sinal]. *)
Record Ambiente : Type := {
  CHAT_ID : ChatId;
  send_message : result unit;  (* [Raise TelegramError], another exception, or delivered *)
  escrita : result unit;       (* [open(...)] and [f.write(...)] *)
  agora_iso : string           (* [datetime.now().isoformat()] *)
}.

(** The object and the world it writes to. *)
Record TelegramAlerta : Type := {
  alertas_enviados : gset string;
  mensagens : list (Z * Signal F);            (* delivered to the chat *)
  historico_sinais : list (string * Signal F) (* lines of the audit file *)
}.

(** [TelegramAlerta.__init__] on a fresh chat and file. *)
Definition novo_alerta : TelegramAlerta :=
  {| alertas_enviados := ∅; mensagens := []; historico_sinais := [] |}.

(** The text of [sinal['acao']]. *)
Definition acao_str (a : Acao) : string :=
  match a with VENDA => "VENDA" | COMPRA => "COMPRA" end.

(** [sinal['timestamp'][:5]], the day and month ["dd/mm"] of the signal. *)
Definition data_do_sinal (sinal : Signal F) : string :=
  substring 0 5 (timestamp sinal).

(** [f"{sinal['symbol']}_{sinal['acao']}_{sinal['timestamp'][:5]}"]. *)
Definition chave_unica (sinal : Signal F) : string :=
  (symbol sinal ++ "_" ++ acao_str (acao sinal) ++ "_" ++ data_do_sinal sinal)%string.

(** [if not CHAT_ID: raise ValueError(...)], then [int(CHAT_ID)]. *)
Definition ler_chat_id (amb : Ambiente) : Prog TelegramAlerta Z :=
  match CHAT_ID amb with
  | chat_ausente => levantar ValueError
  | chat_invalido => levantar ValueError
  | chat_de n => mret n
  end.

(** [self.bot.send_message(chat_id=..., text=mensagem, ...)]: the message
    of the signal reaches the chat, or the call raises. *)
Definition bot_send_message (amb : Ambiente) (chat_id : Z) (sinal : Signal F)
  : Prog TelegramAlerta unit :=
  match send_message amb with
  | Raise e => levantar e
  | Ok _ => modificar (fun self =>
      {| alertas_enviados := alertas_enviados self;
         mensagens := mensagens self ++ [(chat_id, sinal)];
         historico_sinais := historico_sinais self |})
  end.

(** [self.alertas_enviados.add(chave_unica)]. *)
Definition registrar (chave : string) : Prog TelegramAlerta unit :=
  modificar (fun self =>
    {| alertas_enviados := {[chave]} ∪ alertas_enviados self;
       mensagens := mensagens self;
       historico_sinais := historico_sinais self |}).

(** [with open('historico_sinais.log', 'a') as f: f.write(...)]. *)
Definition gravar_historico (amb : Ambiente) (sinal : Signal F)
  : Prog TelegramAlerta unit :=
  match escrita amb with
  | Raise e => levantar e
  | Ok _ => modificar (fun self =>
      {| alertas_enviados := alertas_enviados self;
         mensagens := mensagens self;
         historico_sinais := historico_sinais self ++ [(agora_iso amb, sinal)] |})
  end.

(** *** [TelegramAlerta.enviar_sinal] *)
Definition enviar_sinal (amb : Ambiente) (sinal : Signal F)
  : TelegramAlerta -> bool * TelegramAlerta := fun self =>
  let chave := chave_unica sinal in
  if bool_decide (chave ∈ alertas_enviados self) then (false, self)
  else
    tentar (chat_id ← ler_chat_id amb;
            _ ← bot_send_message amb chat_id sinal;
            _ ← registrar chave;
            _ ← gravar_historico amb sinal;
            mret true)
           (fun _ => false) self.

(** The calls [self.alerta.enviar_sinal(sinal)] of one process, in order. *)
Fixpoint enviar_todos (chamadas : list (Ambiente * Signal F))
    (self : TelegramAlerta) : TelegramAlerta :=
  match chamadas with
  | [] => self
  | (amb, sinal) :: resto => enviar_todos resto (snd (enviar_sinal amb sinal self))
  end.
End Alerta.

Arguments TelegramAlerta F : clear implicits.

(** ** The conditions of the specification, in its own words *)

Section Condicoes.
Context {F : Type} {num : Numero F}.

(** [volume[-1] / mean(volume[-20:])]. *)
Definition volume_strength (series : list (Candle F)) (last : Candle F) : F :=
  k_volume last ⊘ np_mean (map k_volume (py_slice_last 20 series)).

(** [high[-1] > high[-2] * 1.005 and close[-1] < high[-1] * 0.995 and
    volume[-1] / mean(volume[-20:]) > 1.2]. *)
Definition resistance_test (series : list (Candle F)) (prev last : Candle F) : bool :=
  (k_high prev ⊗ dec 1005 1000 <. k_high last)
  && (k_close last <. k_high last ⊗ dec 995 1000)
  && (dec 12 10 <. volume_strength series last).

(** [low[-1] < low[-2] * 0.995 and close[-1] > low[-1] * 1.005] and the
    same volume test. *)
Definition support_test (series : list (Candle F)) (prev last : Candle F) : bool :=
  (k_low last <. k_low prev ⊗ dec 995 1000)
  && (k_low last ⊗ dec 1005 1000 <. k_close last)
  && (dec 12 10 <. volume_strength series last).

(** The mean of [(high - low) / open] over the candles at -4, -3, -2. *)
Definition mean_amplitude (series : list (Candle F)) : result F :=
  amplitudes ← rmap (amplitude series) [-4; -3; -2]%Z;
  Ok (np_mean amplitudes).
End Condicoes.

(** Direction compatibility of the two classifications. *)
Definition alinhados (z : TipoZona) (e : TipoEntrada) : bool :=
  match z, e with
  | resistencia, lateralizacao_superior => true
  | suporte, lateralizacao_inferior => true
  | _, _ => false
  end.

(** The message reaches the chat: [CHAT_ID] is set and an integer and
    [bot.send_message] does not raise. *)
Definition entregue (amb : Ambiente) : bool :=
  match CHAT_ID amb, send_message amb with
  | chat_de _, Ok _ => true
  | _, _ => false
  end.

(** The invariant of the gate: every delivered message has its key in the
    set, and no two delivered messages share a key. *)
Definition gate_inv {F} (self : TelegramAlerta F) : Prop :=
  NoDup (map (fun m => chave_unica (snd m)) (mensagens self)) /\
  forall m, m ∈ mensagens self -> chave_unica (snd m) ∈ alertas_enviados self.

(** *** The band formulas, over the reals *)

(** The dot product [np.convolve] takes on one window [w] of [P] closes. *)
Definition sma_janela {F} {num : Numero F} (P : nat) (w : list F) : F :=
  np_sum (np_map2 nmul w (rev (np_ones_div P))).

(** The sum of a window. *)
Definition soma (w : list R) : R := fold_right Rplus 0%R w.

(** The arithmetic mean of a window. *)
Definition arithmetic_mean (w : list R) : R := (soma w / INR (length w))%R.

(** The population standard deviation of a window: the divisor is the
    number of closes in the window. *)
Definition population_std (w : list R) : R :=
  sqrt (soma (map (fun x => (x - arithmetic_mean w) ^ 2)%R w) / INR (length w)).

(** ** Sample series *)

Definition vela (t : Z) (o h l c v : float) : Candle float :=
  {| k_open_time := t; k_open := o; k_high := h; k_low := l; k_close := c;
     k_volume := v; k_close_time := t + 1 |}.

(** Twenty-three quiet hourly candles of volume 100. *)
Definition calmaria_1h : list (Candle float) :=
  map (fun i => vela (Z.of_nat i) 98 99 97 98 100) (seq 0 23).

(** The last candle breaks the previous high (100 against 99), closes at
    99.4 and trades 150 against a twenty-candle mean of 100. *)
Definition serie_resistencia : list (Candle float) :=
  calmaria_1h ++ [vela 23 98 99 97 98 50; vela 24 98 100 97 (dec 994 10) 150].

(** An outside bar: the last candle breaks both the previous high (100
    against 99) and the previous low (90 against 95) and closes at 95. *)
Definition serie_barra_externa : list (Candle float) :=
  calmaria_1h ++ [vela 23 98 99 95 98 50; vela 24 98 100 90 95 150].

(** The same shape one step lower, closing at 93. *)
Definition serie_barra_externa' : list (Candle float) :=
  calmaria_1h ++ [vela 23 97 98 94 97 50; vela 24 97 99 89 93 150].

(** A resistance zone at 100 with volume strength exactly 1.5 and an upper
    touch whose closed candle is at 98. *)
Definition zona_100 : ContextZone float :=
  {| cz_tipo := resistencia; cz_preco_zona := 100%float;
     cz_preco_atual := 99%float; cz_forca_volume := 1.5%float;
     cz_timestamp := 24; cz_timeframe := "1h" |}.

(** An upper touch whose closed candle is at 98. *)
Definition toque_98 : EntryEvent float :=
  {| ee_tipo := lateralizacao_superior; ee_percent_b := dec 97 100;
     ee_amplitude_media := dec 2 1000; ee_preco_atual := 98%float;
     ee_timestamp := 48; ee_timeframe := "5m" |}.

(** The same zone with volume strength 1.75. *)
Definition zona_100_forte : ContextZone float :=
  {| cz_tipo := resistencia; cz_preco_zona := 100%float;
     cz_preco_atual := 99%float; cz_forca_volume := 1.75%float;
     cz_timestamp := 24; cz_timeframe := "1h" |}.

(** A lower touch at 98, misaligned with a resistance zone. *)
Definition toque_baixo_98 : EntryEvent float :=
  {| ee_tipo := lateralizacao_inferior; ee_percent_b := dec 3 100;
     ee_amplitude_media := dec 2 1000; ee_preco_atual := 98%float;
     ee_timestamp := 48; ee_timeframe := "5m" |}.

(** *** Sample signals and environments for the alert gate *)

Definition venda_btc (agora : string) : Signal float :=
  {| acao := VENDA; symbol := "BTCUSDT"; preco_entrada := 98%float;
     preco_zona := 100%float; risco_percentual := 2%float;
     forca_volume := 1.75%float; timestamp := agora;
     timeframe_contexto := "1h"; timeframe_entrada := "5m";
     confianca := ALTA |}.

(** Chat configured, Telegram and the audit file working. *)
Definition ambiente_bom (iso : string) : Ambiente :=
  {| CHAT_ID := chat_de 4242; send_message := Ok tt; escrita := Ok tt;
     agora_iso := iso |}.

(** Telegram answers with an error. *)
Definition ambiente_telegram_fora (iso : string) : Ambiente :=
  {| CHAT_ID := chat_de 4242; send_message := Raise TelegramError;
     escrita := Ok tt; agora_iso := iso |}.

(** [CHAT_ID] is not configured. *)
Definition ambiente_sem_chat (iso : string) : Ambiente :=
  {| CHAT_ID := chat_ausente; send_message := Ok tt; escrita := Ok tt;
     agora_iso := iso |}.

(** Four closes 1, 2, 3, 4 as real and as float candles. *)
Definition velas_reais : list (Candle R) :=
  map (fun c => {| k_open_time := 0; k_open := c; k_high := c; k_low := c;
                   k_close := c; k_volume := 1%R; k_close_time := 1 |})
      [1%R; 2%R; 3%R; 4%R].

Definition velas_1234 : list (Candle float) :=
  map (fun c => vela 0 c c c c 1) [1%float; 2%float; 3%float; 4%float].

(** *** Sample 5m series *)

(** Twelve flat candles, three closed candles of relative amplitude 0.002
    and a wide candle in progress. *)
Definition velas_5m_toque : list (Candle float) :=
  map (fun i => vela (Z.of_nat i) 1000 1000 1000 1000 1) (seq 0 12)
  ++ [vela 12 1000 1002 1000 1001 1; vela 13 1000 1002 1000 1001 1;
      vela 14 1000 1002 1000 1001.5 1; vela 15 1000 1500 1000 1400 1].

(** A band set whose percentB at the last closed candle is 0.97. *)
Definition bandas_toque : BandSet float :=
  {| superior := []; media := []; inferior := [];
     percent_b := [0.5%float; dec 97 100; 0.25%float];
     periodo := 20; desvios := 2%float |}.

(** Twenty 5m candles, closes 100 to 119: as many as the band period. *)
Definition velas_5m_vinte : list (Candle float) :=
  map (fun i => let c := float_of_Z (100 + Z.of_nat i) in
                vela (Z.of_nat i) c (c + 1) (c - 1) c 1) (seq 0 20).

(** Twenty-one candles closing at 100: a constant-price series. *)
Definition velas_5m_constantes : list (Candle float) :=
  map (fun i => vela (Z.of_nat i) 100 100 100 100 1) (seq 0 21).

(** A market-data collaborator that answers the resistance series at 1h
    and the twenty candles at 5m. *)
Definition binance_vinte (symbol intervalo : string) (limit : nat)
  : option (list (Candle float)) :=
  if String.eqb intervalo "1h" then Some serie_resistencia
  else Some velas_5m_vinte.

(** Twenty-two candles closing at 101. *)
Definition velas_5m_constantes_101 : list (Candle float) :=
  map (fun i => vela (Z.of_nat i) 101 101 101 101 1) (seq 0 22).

(** ** Further definitions: compositions and collaborators *)

(** Steps 3 and 5 of [confirmar_sinal]: the bands of the 5m series and the
    entry detector on that same series. *)
Definition entrada_5m_da_serie {F} {num : Numero F}
    (klines_5m : list (Candle F)) (periodo : nat) (desvios : F)
  : result (option (EntryEvent F)) :=
  bb ← calcular klines_5m periodo desvios;
  detectar_entrada_5m klines_5m bb.

(** A market-data collaborator that answers one fixed series per
    timeframe. *)
Definition binance_fixo {F} (klines_1h klines_5m : list (Candle F))
    (symbol intervalo : string) (limit : nat) : option (list (Candle F)) :=
  if String.eqb intervalo "1h" then Some klines_1h else Some klines_5m.

(** Twenty-one flat 5m candles at 99.5, a closed candle that rises to
    99.625 and a candle in progress. *)
Definition velas_5m_sinal : list (Candle float) :=
  map (fun i => vela (Z.of_nat i) 99.5 99.5 99.5 99.5 1) (seq 0 21)
  ++ [vela 21 99.5 99.625 99.5 99.625 1; vela 22 99.625 99.75 99.5 99.5 1].

(** A support zone at 100 and a lower touch whose closed candle is at 102. *)
Definition suporte_100 : ContextZone float :=
  {| cz_tipo := suporte; cz_preco_zona := 100%float;
     cz_preco_atual := 101%float; cz_forca_volume := 1.75%float;
     cz_timestamp := 24; cz_timeframe := "1h" |}.

Definition toque_baixo_102 : EntryEvent float :=
  {| ee_tipo := lateralizacao_inferior; ee_percent_b := dec 3 100;
     ee_amplitude_media := dec 2 1000; ee_preco_atual := 102%float;
     ee_timestamp := 48; ee_timeframe := "5m" |}.

(** What the keys and the audit file record of the chat: the keys are
    exactly the keys of the delivered messages, and every audited signal
    was delivered. *)
Definition auditoria_inv {F} (self : TelegramAlerta F) : Prop :=
  (forall k, k ∈ alertas_enviados self <->
             exists m, m ∈ mensagens self /\ chave_unica (snd m) = k) /\
  (forall h, h ∈ historico_sinais self ->
             exists n, (n, snd h) ∈ mensagens self) /\
  length (historico_sinais self) <= length (mensagens self).

(** ** [ReversaoBot]: the monitoring loop *)

Definition INTERVALO_VERIFICACAO : Z := 300.
Definition PARES_MONITORADOS : list string := ["BTCUSDT"; "ETHUSDT"; "SOLUSDT"].

(** A [datetime] is counted in microseconds, its resolution, and
    [segundos n] is [timedelta(seconds=n)].  The test
    [delta.total_seconds() < 300] divides the microseconds of [delta] by
    [10**6]; that quotient is below 300 exactly when the microseconds are
    below [300 * 10**6]. *)
Definition segundos (n : Z) : Z := (n * 1000000)%Z.

(** The object: the alert gate and the dict [ultima_verificacao]. *)
Record ReversaoBot (F : Type) : Type := {
  alerta : TelegramAlerta F;
  ultima_verificacao : gmap string Z
}.
Arguments alerta {F} _.
Arguments ultima_verificacao {F} _.

(** [ReversaoBot.__init__]. *)
Definition novo_bot {F} : ReversaoBot F :=
  {| alerta := novo_alerta; ultima_verificacao := ∅ |}.

(** What the world answers while one pair is handled in one cycle. *)
Record Leitura (F : Type) : Type := {
  relogio_teste : Z;      (* [datetime.now()] of the rate-limit test *)
  mercado : string -> string -> nat -> option (list (Candle F));
                          (* [BinanceAPI.obter_klines] during [confirmar_sinal] *)
  relogio_texto : string; (* [datetime.now().strftime(...)] in [confirmar_sinal] *)
  mundo : Ambiente;       (* Telegram and the audit file during [enviar_sinal] *)
  relogio_registro : Z    (* [datetime.now()] stored in [ultima_verificacao] *)
}.
Arguments relogio_teste {F} _.
Arguments mercado {F} _.
Arguments relogio_texto {F} _.
Arguments mundo {F} _.
Arguments relogio_registro {F} _.

(** [(datetime.now() - ultima).total_seconds() < INTERVALO_VERIFICACAO]
    with [ultima = self.ultima_verificacao.get(symbol, ciclo_inicio -
    timedelta(minutes=6))]. *)
Definition limitado (ciclo_inicio agora : Z) (ultimas : gmap string Z)
    (symbol : string) : bool :=
  let ultima := default (ciclo_inicio - segundos 360)%Z (ultimas !! symbol) in
  (agora - ultima <? segundos INTERVALO_VERIFICACAO)%Z.

(** The body of [for symbol in PARES_MONITORADOS]: [continue] under the
    rate limit; otherwise the [try] block, whose [except Exception] leaves
    the object as it is. *)
Definition analisar_par {F} {num : Numero F} (ciclo_inicio : Z) (symbol : string)
    (l : Leitura F) (self : ReversaoBot F) : ReversaoBot F :=
  if limitado ciclo_inicio (relogio_teste l) (ultima_verificacao self) symbol
  then self
  else
    match confirmar_sinal (mercado l) (relogio_texto l) symbol with
    | Raise _ => self
    | Ok sinal =>
      {| alerta := match sinal with
                   | Some s => snd (enviar_sinal (mundo l) s (alerta self))
                   | None => alerta self
                   end;
         ultima_verificacao :=
           <[symbol := relogio_registro l]> (ultima_verificacao self) |}
    end.

(** One turn of [while True], started at [ciclo_inicio].  The closing
    [time.sleep] changes nothing but the clock, whose readings the next
    turn is given. *)
Definition ciclo {F} {num : Numero F} (ciclo_inicio : Z)
    (leituras : string -> Leitura F) (self : ReversaoBot F) : ReversaoBot F :=
  foldl (fun bot symbol => analisar_par ciclo_inicio symbol (leituras symbol) bot)
        self PARES_MONITORADOS.

(** [ReversaoBot.executar] over its first turns: the loop has no exit, so
    a run is known by its finite prefixes. *)
Definition executar {F} {num : Numero F}
    (ciclos : list (Z * (string -> Leitura F))) (self : ReversaoBot F)
  : ReversaoBot F :=
  foldl (fun bot c => ciclo (fst c) (snd c) bot) self ciclos.

(** What holds of a bot at every moment of a run. *)
Definition bot_inv {F} {num : Numero F} (self : ReversaoBot F) : Prop :=
  gate_inv (alerta self) /\ auditoria_inv (alerta self) /\
  (forall m, m ∈ mensagens (alerta self) ->
     symbol (snd m) ∈ PARES_MONITORADOS /\
     (dec 12 10 <. forca_volume (snd m)) = true /\
     (preco_zona (snd m) ==. of_Z 0) = false) /\
  (forall par, is_Some (ultima_verificacao self !! par) -> par ∈ PARES_MONITORADOS).

(** A reading in which the market shows the resistance rejection and the
    upper-band touch, and Telegram and the disk work. *)
Definition leitura_de_venda (teste registro : Z) : Leitura float :=
  {| relogio_teste := teste;
     mercado := binance_fixo serie_resistencia velas_5m_sinal;
     relogio_texto := "31/01 10:00:00";
     mundo := ambiente_bom "2026-01-31T10:00:00";
     relogio_registro := registro |}.

(** ** [BinanceAPI.formatar_preco] *)

(** [s.replace(velho, novo)] for texts [velho] and [novo] of one character. *)
Fixpoint py_replace1 (velho novo : ascii) (s : string) : string :=
  match s with
  | EmptyString => EmptyString
  | String c resto =>
    String (if Ascii.eqb c velho then novo else c) (py_replace1 velho novo resto)
  end.

(** [f"R$ {valor:,.2f}".replace(",", "X").replace(".", ",").replace("X", ".")];
    [formato valor] is the text of [valor] under the format [,.2f]. *)
Definition formatar_preco {F} (formato : F -> string) (valor : F) : string :=
  py_replace1 "X" "." (py_replace1 "." "," (py_replace1 "," "X"
    ("R$ " ++ formato valor)%string)).

(** Commas for points and points for commas. *)
Fixpoint trocar_separadores (s : string) : string :=
  match s with
  | EmptyString => EmptyString
  | String c resto =>
    String (if Ascii.eqb c "," then "."%char
            else if Ascii.eqb c "." then ","%char else c)
           (trocar_separadores resto)
  end.

(** The text holds no character [c]. *)
Fixpoint sem_caractere (c : ascii) (s : string) : bool :=
  match s with
  | EmptyString => true
  | String c' resto => negb (Ascii.eqb c' c) && sem_caractere c resto
  end.

(** ** [main] *)

(** How [main()] ends, or goes on. *)
Inductive SaidaMain (F : Type) : Type :=
| sem_configuracao               (* [return] before the bot is built *)
| erro_fatal (e : exn)           (* [except Exception]: logged as fatal *)
| em_execucao (bot : ReversaoBot F).
Arguments sem_configuracao {F}.
Arguments erro_fatal {F} _.
Arguments em_execucao {F} _.

(** [main()] over the first turns of the loop.  [TELEGRAM_TOKEN] is what
    [os.getenv] gave, [chat] the module constant [CHAT_ID] every call of
    [enviar_sinal] reads, and [construtor] the outcome of
    [Bot(token=TELEGRAM_TOKEN)] inside [ReversaoBot()]. *)
Definition main {F} {num : Numero F} (TELEGRAM_TOKEN : option string)
    (chat : ChatId) (construtor : result unit)
    (ciclos : list (Z * (string -> Leitura F))) : SaidaMain F :=
  match TELEGRAM_TOKEN with
  | None | Some EmptyString => sem_configuracao
  | Some _ =>
    match chat with
    | chat_ausente => sem_configuracao
    | _ =>
      match construtor with
      | Raise e => erro_fatal e
      | Ok _ => em_execucao (executar ciclos novo_bot)
      end
    end
  end.

(** Telegram works and the audit file cannot be written. *)
Definition ambiente_disco_cheio (iso : string) : Ambiente :=
  {| CHAT_ID := chat_de 4242; send_message := Ok tt; escrita := Raise OtherError;
     agora_iso := iso |}.

(** * Properties *)

(** Opens the existentials, conjunctions and [Ok _ = Ok _] equations of
    the context. *)
Ltac desfaz :=
  repeat match goal with
  | H : exists _, _ |- _ => destruct H
  | H : _ /\ _ |- _ => destruct H
  | H : Ok _ = Ok _ |- _ => inversion H; clear H; subst
  | H : Some _ = Some _ |- _ => inversion H; clear H; subst
  | H : Raise _ = Ok _ |- _ => discriminate H
  | H : Ok _ = Raise _ |- _ => discriminate H
  end.

(** ** Python indexing and slices *)

Section PySeqFacts.
Context {A : Type}.
Implicit Types l : list A.

(** A negative index within the length reads from the end. *)
Lemma py_index_neg l (k : nat) :
  1 <= k -> k <= length l ->
  py_index l (- Z.of_nat k) =
  match l !! (length l - k) with Some x => Ok x | None => Raise IndexError end.
Proof.
  intros Hk Hl. unfold py_index.
  replace (- Z.of_nat k <? 0)%Z with true by (symmetry; apply Z.ltb_lt; lia).
  replace (Z.of_nat (length l) + - Z.of_nat k <? 0)%Z with false
    by (symmetry; apply Z.ltb_ge; lia).
  replace (Z.of_nat (length l) <=? Z.of_nat (length l) + - Z.of_nat k)%Z with false
    by (symmetry; apply Z.leb_gt; lia).
  simpl.
  replace (Z.to_nat (Z.of_nat (length l) + - Z.of_nat k)) with (length l - k) by lia.
  reflexivity.
Qed.

(** Inside the list a negative index always finds an element. *)
Lemma py_index_neg_Ok l (k : nat) :
  1 <= k -> k <= length l ->
  exists x, l !! (length l - k) = Some x /\ py_index l (- Z.of_nat k) = Ok x.
Proof.
  intros Hk Hl. rewrite py_index_neg by assumption.
  destruct (lookup_lt_is_Some_2 l (length l - k)) as [x Hx]; [lia|].
  exists x. rewrite Hx. auto.
Qed.

(** Past the front of the list it raises. *)
Lemma py_index_neg_raise l (k : nat) :
  length l < k -> py_index l (- Z.of_nat k) = Raise IndexError.
Proof.
  intros Hl. unfold py_index.
  replace (- Z.of_nat k <? 0)%Z with true by (symmetry; apply Z.ltb_lt; lia).
  replace (Z.of_nat (length l) + - Z.of_nat k <? 0)%Z with true
    by (symmetry; apply Z.ltb_lt; lia).
  reflexivity.
Qed.

(** [len(l[-k:])]. *)
Lemma length_py_slice_last k l : length (py_slice_last k l) = Nat.min k (length l).
Proof. unfold py_slice_last. rewrite length_skipn. lia. Qed.

(** [l[-k:][-j] = l[-j]] for [1 <= j <= k]. *)
Lemma py_index_slice_last l (k j : nat) :
  1 <= j -> j <= k -> j <= length l ->
  py_index (py_slice_last k l) (- Z.of_nat j) = py_index l (- Z.of_nat j).
Proof.
  intros Hj Hk Hl.
  rewrite !py_index_neg by (rewrite ?length_py_slice_last; lia).
  rewrite length_py_slice_last. unfold py_slice_last.
  rewrite lookup_drop.
  replace (length l - k + (Nat.min k (length l) - j)) with (length l - j) by lia.
  reflexivity.
Qed.

(** [len(l[i:j])] and the elements of [l[i:j]]. *)
Lemma length_py_slice i j l :
  j <= length l -> length (py_slice i j l) = j - i.
Proof. intros H. unfold py_slice. rewrite length_firstn, length_skipn. lia. Qed.

Lemma lookup_py_slice i j l n :
  n < j - i -> py_slice i j l !! n = l !! (i + n).
Proof.
  intros H. unfold py_slice. rewrite lookup_take_lt by lia. apply lookup_drop.
Qed.
End PySeqFacts.

(** ** Facts of binary64 arithmetic *)

(** The decimal literals of the source, as [dec] builds them, are the
    binary64 values Python reads them as. *)
Example literais_da_fonte :
  (dec 1005 1000 : float) = 0x1.0147ae147ae14p+0%float /\
  (dec 995 1000 : float) = 0x1.fd70a3d70a3d7p-1%float /\
  (dec 12 10 : float) = 0x1.3333333333333p+0%float /\
  (dec 95 100 : float) = 0x1.e666666666666p-1%float /\
  (dec 5 100 : float) = 0x1.999999999999ap-5%float /\
  (dec 3 1000 : float) = 0x1.89374bc6a7efap-9%float /\
  (dec 15 10 : float) = 0x1.8p+0%float.
Proof. vm_compute. repeat split. Qed.

Section FloatFacts.
Local Open Scope float_scope.

Lemma Prim2SF_nan : Prim2SF nan = S754_nan.
Proof. reflexivity. Qed.

(** Every ordered comparison with NaN is false. *)
Lemma ltb_nan_l x : (nan <? x) = false.
Proof. rewrite ltb_spec, Prim2SF_nan. reflexivity. Qed.

Lemma ltb_nan_r x : (x <? nan) = false.
Proof.
  rewrite ltb_spec, Prim2SF_nan. unfold SFltb, SFcompare.
  destruct (Prim2SF x); reflexivity.
Qed.

(** A finite float is a zero or a signed mantissa and exponent. *)
Lemma is_finite_SF x :
  is_finite x = true ->
  (exists s, Prim2SF x = S754_zero s) \/ (exists s m e, Prim2SF x = S754_finite s m e).
Proof.
  unfold is_finite. intros H. apply negb_true_iff, orb_false_iff in H as [Hn Hi].
  unfold Prim2SF. rewrite Hn, Hi.
  destruct (is_zero x); [left; eauto|].
  destruct (Z.frexp x) as [r ex].
  destruct (shr_fexp _ _ _ _ _) as [sh e'].
  destruct (shr_m sh); [left|right|left]; eauto.
Qed.

(** [x - x] is [+0.0] for every finite [x]. *)
Lemma sub_diag_finite x : is_finite x = true -> x - x = 0.
Proof.
  intros H. apply Prim2SF_inj. rewrite sub_spec.
  destruct (is_finite_SF x H) as [[s Hs]|(s & m & e & Hs)]; rewrite Hs.
  - destruct s; reflexivity.
  - unfold SF64sub, SFsub. rewrite Z.sub_diag. reflexivity.
Qed.

(** [0.0 / 0.0] is NaN. *)
Lemma div_zero_zero : 0 / 0 = nan.
Proof. reflexivity. Qed.

(** Rounding does not look at the sign. *)
Lemma SFabs_binary_round_aux s m e l :
  SFabs (binary_round_aux prec emax s m e l) = binary_round_aux prec emax false m e l.
Proof.
  unfold binary_round_aux.
  destruct (shr_fexp prec emax m e l) as [mrs e'].
  destruct (shr_fexp prec emax _ e' loc_Exact) as [mrs' e''].
  destruct (shr_m mrs'); [reflexivity| |reflexivity].
  destruct (Z.leb _ _); reflexivity.
Qed.

(** [abs(x / y) = abs(x) / y] for a positive divisor. *)
Lemma abs_div_pos x y : (0 <? y) = true -> abs (x / y) = abs x / y.
Proof.
  intros H. apply Prim2SF_inj. rewrite abs_spec, !div_spec, abs_spec.
  rewrite ltb_spec in H. change (Prim2SF 0) with (S754_zero false) in H.
  destruct (Prim2SF y) as [sy| sy | | sy my ey]; try discriminate H;
    destruct sy; try discriminate H;
    destruct (Prim2SF x) as [sx| sx | | sx mx ex]; try reflexivity.
  unfold SF64div. cbn [SFabs SFdiv].
  destruct (SFdiv_core_binary _ _ _ _ _ _) as [[mz ez] lz].
  rewrite SFabs_binary_round_aux. reflexivity.
Qed.

(** A positive float is not [== 0.0]. *)
Lemma pos_neq_zero y : (0 <? y) = true -> (y =? 0) = false.
Proof.
  intros H. rewrite ltb_spec in H. rewrite FloatAxioms.eqb_spec.
  change (Prim2SF 0) with (S754_zero false) in *.
  destruct (Prim2SF y) as [sy| sy | | sy my ey]; try discriminate H;
    destruct sy; try discriminate H; reflexivity.
Qed.

(** No float is both below 0.05 and above 0.95. *)
Lemma toques_exclusivos (x : float) :
  (x <. dec 5 100) = true -> (dec 95 100 <. x) = false.
Proof.
  cbn [nltb float_Numero]. rewrite !ltb_spec.
  replace (Prim2SF (dec 5 100))
    with (S754_finite false 7205759403792794 (-57)) by (vm_compute; reflexivity).
  replace (Prim2SF (dec 95 100))
    with (S754_finite false 8556839292003942 (-53)) by (vm_compute; reflexivity).
  unfold SFltb, SFcompare.
  destruct (Prim2SF x) as [s|s| |s m e]; try discriminate;
    try (destruct s; intros; try discriminate; reflexivity).
  destruct s; [reflexivity|].
  destruct (Z.compare_spec e (-57)); destruct (Z.compare_spec (-53) e);
    try lia; try discriminate; reflexivity.
Qed.
End FloatFacts.

(** ** The band calculator *)

Section NpFacts.
Context {A B C : Type}.

(** Length and elements of an elementwise operation. *)
Lemma length_np_map2 (f : A -> B -> C) l1 l2 :
  length (np_map2 f l1 l2) = Nat.min (length l1) (length l2).
Proof.
  revert l2. induction l1 as [|x t IH]; intros [|y u]; cbn; auto.
Qed.

Lemma lookup_np_map2 (f : A -> B -> C) l1 l2 i :
  np_map2 f l1 l2 !! i =
  match l1 !! i, l2 !! i with
  | Some a, Some b => Some (f a b)
  | _, _ => None
  end.
Proof.
  revert l2 i. induction l1 as [|x t IH]; intros [|y u] [|i]; cbn; auto.
  destruct (t !! i); reflexivity.
Qed.
End NpFacts.

(** [[f(i) for i in range(n)][i]]. *)
Lemma lookup_map_seq {A} (f : nat -> A) n i :
  i < n -> map f (seq 0 n) !! i = Some (f i).
Proof.
  intros H. change (map f (seq 0 n)) with (f <$> seq 0 n).
  rewrite list_lookup_fmap, lookup_seq_lt by exact H. reflexivity.
Qed.

Section Calc.
Context {F : Type} {num : Numero F}.

(** On two non-empty arrays the convolution does not raise. *)
Lemma np_convolve_valid_Ok (a v : list F) :
  1 <= length a -> 1 <= length v ->
  np_convolve_valid a v =
  Ok (map (fun i => np_sum (np_map2 nmul (py_slice i (i + length v) a) (rev v)))
          (seq 0 (length a - length v + 1))).
Proof.
  destruct a, v; cbn; intros; try lia; reflexivity.
Qed.

(** What [calcular] returns for [1 <= P <= len(candles)], index by index. *)
Lemma calcular_lookup (candles : list (Candle F)) (P : nat) (d : F) :
  1 <= P -> P <= length candles ->
  exists bb, calcular candles P d = Ok (Some bb) /\
    length (superior bb) = length candles - P + 1 /\
    length (media bb) = length candles - P + 1 /\
    length (inferior bb) = length candles - P + 1 /\
    length (percent_b bb) = length candles - P + 1 /\
    periodo bb = P /\ desvios bb = d /\
    forall i, i < length candles - P + 1 ->
      let w := py_slice i (i + P) (map k_close candles) in
      let m := sma_janela P w in
      let sup := m ⊕ d ⊗ np_std w in
      let inf := m ⊖ d ⊗ np_std w in
      exists c, map k_close candles !! (i + P - 1) = Some c /\
        media bb !! i = Some m /\
        superior bb !! i = Some sup /\
        inferior bb !! i = Some inf /\
        percent_b bb !! i = Some ((c ⊖ inf) ⊘ (sup ⊖ inf)).
Proof.
  intros HP HN. unfold calcular.
  replace (length candles <? P) with false by (symmetry; apply Nat.ltb_ge; lia).
  assert (Hl : length (np_ones_div P : list F) = P)
    by (unfold np_ones_div; apply repeat_length).
  rewrite np_convolve_valid_Ok
    by (rewrite ?length_map, ?Hl; lia).
  cbn [mbind result_bind rbind]. rewrite Hl, !length_map.
  set (n := length candles - P + 1).
  eexists. split; [reflexivity|]. cbn [superior media inferior percent_b periodo desvios].
  rewrite !length_np_map2, !length_map, !length_seq.
  unfold py_slice_from. rewrite length_skipn, ?length_map.
  repeat (split; [try reflexivity; lia|]).
  intros i Hi.
  destruct (lookup_lt_is_Some_2 (map k_close candles) (i + P - 1)) as [c Hc];
    [rewrite length_map; lia|].
  exists c. split; [exact Hc|].
  assert (Hstd : map (nmul d)
            (map (fun i => np_std (py_slice i (i + P) (map k_close candles))) (seq 0 n)) !! i
          = Some (d ⊗ np_std (py_slice i (i + P) (map k_close candles)))).
  { rewrite map_map. apply (lookup_map_seq (fun i => d ⊗ np_std _)), Hi. }
  rewrite !lookup_np_map2, Hstd, !lookup_map_seq by exact Hi.
  rewrite lookup_drop. replace (P - 1 + i) with (i + P - 1) by lia. rewrite Hc.
  repeat split; reflexivity.
Qed.
End Calc.

Section RealFacts.
Local Open Scope R_scope.

(** Over the reals the numpy reductions are the textbook ones. *)
Lemma fold_left_Rplus w a : fold_left Rplus w a = a + soma w.
Proof.
  revert a. induction w as [|x t IH]; intros a; cbn.
  - lra.
  - rewrite IH. unfold soma. lra.
Qed.

Lemma np_sum_R w : np_sum (F:=R) w = soma w.
Proof. unfold np_sum. cbn. rewrite fold_left_Rplus. lra. Qed.

Lemma np_mean_R w : np_mean (F:=R) w = arithmetic_mean w.
Proof.
  unfold np_mean, arithmetic_mean. rewrite np_sum_R. cbn.
  rewrite <- INR_IZR_INZ. reflexivity.
Qed.

Lemma np_std_R w : np_std (F:=R) w = population_std w.
Proof.
  unfold np_std, population_std. rewrite !np_mean_R. unfold arithmetic_mean at 1.
  rewrite length_map. cbn.
  rewrite (map_ext (fun x => (x - arithmetic_mean w) * (x - arithmetic_mean w))
                   (fun x => (x - arithmetic_mean w) ^ 2)) by (intros x; ring).
  reflexivity.
Qed.

(** The reversed kernel of equal weights is the kernel. *)
Lemma rev_repeat_R (c : R) n : rev (repeat c n) = repeat c n.
Proof.
  induction n as [|n IH]; cbn; [reflexivity|].
  rewrite IH. symmetry. apply repeat_cons.
Qed.

(** A dot product with equal weights is the weighted sum. *)
Lemma soma_map2_repeat (w : list R) c n :
  (length w <= n)%nat -> soma (np_map2 Rmult w (repeat c n)) = soma w * c.
Proof.
  revert n. induction w as [|x t IH]; intros [|n] H; cbn in *; try lra; try lia.
  rewrite IH by lia. unfold soma. cbn. ring.
Qed.

(** The convolution with weights [1/P] is the arithmetic mean. *)
Lemma sma_janela_R P w :
  length w = P -> (1 <= P)%nat -> sma_janela (F:=R) P w = arithmetic_mean w.
Proof.
  intros Hl HP. unfold sma_janela, np_ones_div. rewrite np_sum_R. cbn.
  rewrite rev_repeat_R, soma_map2_repeat by lia.
  unfold arithmetic_mean. rewrite Hl, <- INR_IZR_INZ. unfold Rdiv. ring.
Qed.
End RealFacts.

(** On floats: closes 1, 2, 3, 4 with period 2 and multiplier 2.  The first
    window has mean 1.5 and population deviation 0.5, so the upper band is
    2.5. *)
Example calcular_1234 :
  calcular velas_1234 2 2%float =
  Ok (Some {| superior := [2.5; 3.5; 4.5]%float;
              media := [1.5; 2.5; 3.5]%float;
              inferior := [0.5; 1.5; 2.5]%float;
              percent_b := [0.75; 0.75; 0.75]%float;
              periodo := 2; desvios := 2%float |}).
Proof. vm_compute. reflexivity. Qed.

(** C6: for [len(series) < period] the band calculator returns no band
    set.  For [1 <= period <= len(series)] it returns four sequences of
    [len - period + 1] values; at index [i] the window is the [period]
    closes [i .. i+period-1], the upper and lower bands are the middle band
    plus and minus the multiplier times [np.std] of the window, and
    percentB is computed from the close at position [i+period-1].  Over
    exact real arithmetic the middle band is the arithmetic mean of the
    window and [np.std] its population standard deviation (divisor
    [period]). *)
Theorem bandas_de_bollinger :
  (forall F (num : Numero F) (candles : list (Candle F)) P d,
     length candles < P -> calcular candles P d = Ok None) /\
  (forall F (num : Numero F) (candles : list (Candle F)) (P : nat) (d : F),
     1 <= P -> P <= length candles ->
     exists bb, calcular candles P d = Ok (Some bb) /\
       length (media bb) = length candles - P + 1 /\
       length (superior bb) = length candles - P + 1 /\
       length (inferior bb) = length candles - P + 1 /\
       length (percent_b bb) = length candles - P + 1 /\
       forall i, i < length candles - P + 1 ->
         exists w c m,
           w = py_slice i (i + P) (map k_close candles) /\
           length w = P /\
           (forall j, j < P -> w !! j = map k_close candles !! (i + j)) /\
           map k_close candles !! (i + P - 1) = Some c /\
           media bb !! i = Some m /\
           m = sma_janela P w /\
           superior bb !! i = Some (m ⊕ d ⊗ np_std w) /\
           inferior bb !! i = Some (m ⊖ d ⊗ np_std w) /\
           percent_b bb !! i =
             Some ((c ⊖ (m ⊖ d ⊗ np_std w))
                   ⊘ ((m ⊕ d ⊗ np_std w) ⊖ (m ⊖ d ⊗ np_std w)))) /\
  (forall (candles : list (Candle R)) (P : nat) (d : R),
     1 <= P -> P <= length candles ->
     exists bb, calcular candles P d = Ok (Some bb) /\
       forall i, i < length candles - P + 1 ->
         exists w c,
           w = py_slice i (i + P) (map k_close candles) /\
           length w = P /\
           map k_close candles !! (i + P - 1) = Some c /\
           media bb !! i = Some (arithmetic_mean w) /\
           superior bb !! i = Some (arithmetic_mean w + d * population_std w)%R /\
           inferior bb !! i = Some (arithmetic_mean w - d * population_std w)%R /\
           percent_b bb !! i =
             Some ((c - (arithmetic_mean w - d * population_std w))
                   / ((arithmetic_mean w + d * population_std w)
                      - (arithmetic_mean w - d * population_std w)))%R /\
           population_std w =
             sqrt (soma (map (fun x => (x - arithmetic_mean w) ^ 2)%R w) / INR P)).
Proof.
  split; [|split].
  - intros F num candles P d H. unfold calcular.
    replace (length candles <? P) with true by (symmetry; apply Nat.ltb_lt; lia).
    reflexivity.
  - intros F num candles P d HP HN.
    destruct (calcular_lookup candles P d HP HN)
      as (bb & Hb & Hls & Hlm & Hli & Hlp & _ & _ & Hi).
    exists bb. repeat (split; [assumption|]).
    intros i Hlt. destruct (Hi i Hlt) as (c & Hc & Hm & Hs & Hin & Hp).
    set (w := py_slice i (i + P) (map k_close candles)) in *.
    assert (Hw : length w = P).
    { unfold w. rewrite length_py_slice by (rewrite length_map; lia). lia. }
    exists w, c, (sma_janela P w). split; [reflexivity|]. split; [exact Hw|]. split.
    { intros j Hj. unfold w. apply lookup_py_slice. lia. }
    repeat split; assumption.
  - intros candles P d HP HN.
    destruct (calcular_lookup candles P d HP HN)
      as (bb & Hb & _ & _ & _ & _ & _ & _ & Hi).
    exists bb. split; [exact Hb|].
    intros i Hlt. destruct (Hi i Hlt) as (c & Hc & Hm & Hs & Hin & Hp).
    set (w := py_slice i (i + P) (map k_close candles)) in *.
    assert (Hw : length w = P).
    { unfold w. rewrite length_py_slice by (rewrite length_map; lia). lia. }
    exists w, c. split; [reflexivity|]. split; [exact Hw|]. split; [exact Hc|].
    rewrite (sma_janela_R P w Hw HP) in Hm, Hs, Hin, Hp.
    rewrite np_std_R in Hs, Hin, Hp.
    repeat (split; [assumption|]).
    unfold population_std. rewrite Hw. reflexivity.
Qed.

Lemma bandas_de_bollinger_witness :
  exists bb, calcular velas_reais 2 2%R = Ok (Some bb) /\
    media bb !! 0 = Some (arithmetic_mean [1; 2]%R) /\
    superior bb !! 0 =
      Some (arithmetic_mean [1; 2] + 2 * population_std [1; 2])%R.
Proof.
  destruct bandas_de_bollinger as (_ & _ & H).
  destruct (H velas_reais 2 2%R) as (bb & Hb & Hi); [cbn; lia | cbn; lia |].
  exists bb. split; [exact Hb|].
  destruct (Hi 0) as (w & c & Hw & _ & _ & Hm & Hs & _); [cbn; lia|].
  rewrite Hm, Hs, Hw. split; reflexivity.
Defined.

(** ** The 1h context detector *)

Section Contexto.
Context {F : Type} {num : Numero F}.
Implicit Types ks : list (Candle F).

(** A list of two elements or more has a last and a last but one. *)
Lemma ultimas_duas {A} (l : list A) :
  2 <= length l ->
  exists prev last, py_index l (-2) = Ok prev /\ py_index l (-1) = Ok last.
Proof.
  intros H.
  destruct (py_index_neg_Ok l 2) as (prev & _ & Hp); [lia | lia |].
  destruct (py_index_neg_Ok l 1) as (last & _ & Hl); [lia | lia |].
  exists prev, last. auto.
Qed.

(** With 25 candles or more the detector reads the last two candles of the
    series and answers by the two tests, resistance first. *)
Lemma detectar_contexto_1h_eq ks prev last :
  25 <= length ks ->
  py_index ks (-2) = Ok prev -> py_index ks (-1) = Ok last ->
  detectar_contexto_1h ks =
  Ok (if resistance_test ks prev last then
        Some {| cz_tipo := resistencia; cz_preco_zona := k_high last;
                cz_preco_atual := k_close last;
                cz_forca_volume := volume_strength ks last;
                cz_timestamp := k_open_time last; cz_timeframe := "1h" |}
      else if support_test ks prev last then
        Some {| cz_tipo := suporte; cz_preco_zona := k_low last;
                cz_preco_atual := k_close last;
                cz_forca_volume := volume_strength ks last;
                cz_timestamp := k_open_time last; cz_timeframe := "1h" |}
      else None).
Proof.
  intros Hlen Hp Hl. unfold detectar_contexto_1h.
  replace (length ks <? 25) with false by (symmetry; apply Nat.ltb_ge; lia).
  change (-1)%Z with (- Z.of_nat 1)%Z. change (-2)%Z with (- Z.of_nat 2)%Z.
  rewrite !py_index_slice_last by lia.
  change (- Z.of_nat 1)%Z with (-1)%Z. change (- Z.of_nat 2)%Z with (-2)%Z.
  rewrite Hl. cbn [mbind result_bind rbind]. rewrite Hp. cbn [mbind result_bind rbind].
  unfold resistance_test, support_test, volume_strength.
  destruct (_ && _ && _); [reflexivity|].
  destruct (_ && _ && _); reflexivity.
Qed.

(** Fewer than 25 candles: no classification. *)
Lemma detectar_contexto_1h_curta ks :
  length ks < 25 -> detectar_contexto_1h ks = Ok None.
Proof.
  intros H. unfold detectar_contexto_1h.
  replace (length ks <? 25) with true by (symmetry; apply Nat.ltb_lt; lia).
  reflexivity.
Qed.
End Contexto.

(** C4, as amended: with fewer than 25 candles the context detector
    returns [None]; with 25 or more it reads the last two candles and
    returns a resistance zone exactly when the resistance test holds, a
    support zone exactly when the support test holds and the resistance
    test does not (resistance is tested first), and [None] exactly when
    neither holds; the zone carries the volume strength and the broken
    extremum.  On [high[-1] = 100], [high[-2] = 99], [close[-1] = 99.4],
    [volume[-1] = 150] and a twenty-candle mean volume of 100 it returns
    resistance with volume strength 1.5. *)
Theorem contexto_1h_classifica :
  (forall F (num : Numero F) (ks : list (Candle F)),
     length ks < 25 -> detectar_contexto_1h ks = Ok None) /\
  (forall F (num : Numero F) (ks : list (Candle F)),
     25 <= length ks ->
     exists prev last,
       py_index ks (-2) = Ok prev /\ py_index ks (-1) = Ok last /\
       ((exists z, detectar_contexto_1h ks = Ok (Some z) /\ cz_tipo z = resistencia)
        <-> resistance_test ks prev last = true) /\
       ((exists z, detectar_contexto_1h ks = Ok (Some z) /\ cz_tipo z = suporte)
        <-> support_test ks prev last = true /\ resistance_test ks prev last = false) /\
       (detectar_contexto_1h ks = Ok None
        <-> resistance_test ks prev last = false /\ support_test ks prev last = false) /\
       (forall z, detectar_contexto_1h ks = Ok (Some z) ->
          cz_forca_volume z = volume_strength ks last /\
          cz_preco_zona z = match cz_tipo z with
                            | resistencia => k_high last
                            | suporte => k_low last
                            end)) /\
  (forall (ks : list (Candle float)) prev last,
     25 <= length ks ->
     py_index ks (-2) = Ok prev -> py_index ks (-1) = Ok last ->
     k_high last = 100%float -> k_high prev = 99%float ->
     k_close last = dec 994 10 -> k_volume last = 150%float ->
     np_mean (map k_volume (py_slice_last 20 ks)) = 100%float ->
     exists z, detectar_contexto_1h ks = Ok (Some z) /\
               cz_tipo z = resistencia /\ cz_forca_volume z = 1.5%float).
Proof.
  split; [|split].
  - intros F num ks. apply detectar_contexto_1h_curta.
  - intros F num ks Hlen.
    destruct (ultimas_duas ks) as (prev & last & Hp & Hl); [lia|].
    exists prev, last. split; [exact Hp|]. split; [exact Hl|].
    rewrite (detectar_contexto_1h_eq ks prev last Hlen Hp Hl).
    destruct (resistance_test ks prev last), (support_test ks prev last);
      repeat split; intros; desfaz; cbn in *;
      try discriminate; try reflexivity;
      try (eexists; split; reflexivity).
  - intros ks prev last Hlen Hp Hl Hh Hhp Hc Hv Hm.
    rewrite (detectar_contexto_1h_eq ks prev last Hlen Hp Hl).
    assert (Hr : resistance_test ks prev last = true).
    { unfold resistance_test, volume_strength. rewrite Hh, Hhp, Hc, Hv, Hm.
      vm_compute. reflexivity. }
    rewrite Hr. eexists. split; [reflexivity|]. split; [reflexivity|].
    cbn [cz_forca_volume]. unfold volume_strength. rewrite Hv, Hm.
    vm_compute. reflexivity.
Qed.

Lemma contexto_1h_classifica_witness :
  detectar_contexto_1h calmaria_1h = Ok None /\
  exists z, detectar_contexto_1h serie_resistencia = Ok (Some z) /\
            cz_tipo z = resistencia /\ cz_forca_volume z = 1.5%float.
Proof.
  destruct contexto_1h_classifica as (H0 & _ & H). split.
  - apply (H0 float _ calmaria_1h). vm_compute. lia.
  - apply (H serie_resistencia (vela 23 98 99 97 98 50)
             (vela 24 98 100 97 (dec 994 10) 150));
      vm_compute; try reflexivity; lia.
Defined.

(** On the outside bar the support test holds and the zone returned is a
    resistance zone. *)
Lemma contexto_1h_suporte_preterido :
  exists prev last,
    py_index serie_barra_externa (-2) = Ok prev /\
    py_index serie_barra_externa (-1) = Ok last /\
    support_test serie_barra_externa prev last = true /\
    exists z, detectar_contexto_1h serie_barra_externa = Ok (Some z) /\
              cz_tipo z = resistencia.
Proof.
  exists (vela 23 98 99 95 98 50), (vela 24 98 100 90 95 150).
  repeat split; try (vm_compute; reflexivity).
  eexists. split; vm_compute; reflexivity.
Qed.

(** C8, as amended: the two tests are not mutually exclusive; whenever both
    hold on a series of 25 candles or more the detector returns the
    resistance zone at the last high (first match), and an outside bar
    makes both hold. *)
Theorem contexto_1h_desempate :
  (forall F (num : Numero F) (ks : list (Candle F)) prev last,
     25 <= length ks ->
     py_index ks (-2) = Ok prev -> py_index ks (-1) = Ok last ->
     resistance_test ks prev last = true -> support_test ks prev last = true ->
     exists z, detectar_contexto_1h ks = Ok (Some z) /\
               cz_tipo z = resistencia /\ cz_preco_zona z = k_high last) /\
  (exists (ks : list (Candle float)) prev last,
     25 <= length ks /\
     py_index ks (-2) = Ok prev /\ py_index ks (-1) = Ok last /\
     resistance_test ks prev last = true /\ support_test ks prev last = true).
Proof.
  split.
  - intros F num ks prev last Hlen Hp Hl Hr Hs.
    rewrite (detectar_contexto_1h_eq ks prev last Hlen Hp Hl), Hr.
    eexists. repeat split.
  - exists serie_barra_externa, (vela 23 98 99 95 98 50), (vela 24 98 100 90 95 150).
    repeat split; first [vm_compute; reflexivity | vm_compute; lia].
Qed.

Lemma contexto_1h_desempate_witness :
  exists z, detectar_contexto_1h serie_barra_externa' = Ok (Some z) /\
            cz_tipo z = resistencia /\ cz_preco_zona z = 99%float.
Proof.
  destruct contexto_1h_desempate as (H & _).
  apply (H float _ serie_barra_externa' (vela 23 97 98 94 97 50)
           (vela 24 97 99 89 93 150));
    vm_compute; try reflexivity; lia.
Defined.

(** Both tests hold at once on this series of 25 candles. *)
Lemma testes_nao_exclusivos :
  25 <= length serie_barra_externa' /\
  exists prev last,
    py_index serie_barra_externa' (-2) = Ok prev /\
    py_index serie_barra_externa' (-1) = Ok last /\
    resistance_test serie_barra_externa' prev last = true /\
    support_test serie_barra_externa' prev last = true.
Proof.
  split; [vm_compute; lia|].
  exists (vela 23 97 98 94 97 50), (vela 24 97 99 89 93 150).
  repeat split; vm_compute; reflexivity.
Qed.

(** ** The 5m entry detector *)

Section Entrada.
Context {F : Type} {num : Numero F}.
Implicit Types (ks : list (Candle F)) (bb : BandSet F).

(** Fewer than 15 candles, or no bands: no classification. *)
Lemma detectar_entrada_5m_curta ks (bb : option (BandSet F)) :
  length ks < 15 \/ bb = None -> detectar_entrada_5m ks bb = Ok None.
Proof.
  unfold detectar_entrada_5m. intros [H| ->].
  - replace (length ks <? 15) with true by (symmetry; apply Nat.ltb_lt; lia).
    reflexivity.
  - destruct (length ks <? 15); reflexivity.
Qed.

(** With 15 candles or more the detector reads percentB at -2, the mean
    amplitude and the candle at -2, and answers by the two touch tests,
    upper first. *)
Lemma detectar_entrada_5m_eq ks bb fechado :
  15 <= length ks -> py_index ks (-2) = Ok fechado ->
  detectar_entrada_5m ks (Some bb) =
  (pb ← py_index (percent_b bb) (-2);
   amp ← mean_amplitude ks;
   Ok (if (dec 95 100 <. pb) && (amp <. dec 3 1000) then
         Some {| ee_tipo := lateralizacao_superior; ee_percent_b := pb;
                 ee_amplitude_media := amp; ee_preco_atual := k_close fechado;
                 ee_timestamp := k_open_time fechado; ee_timeframe := "5m" |}
       else if (pb <. dec 5 100) && (amp <. dec 3 1000) then
         Some {| ee_tipo := lateralizacao_inferior; ee_percent_b := pb;
                 ee_amplitude_media := amp; ee_preco_atual := k_close fechado;
                 ee_timestamp := k_open_time fechado; ee_timeframe := "5m" |}
       else None)).
Proof.
  intros Hlen Hf. unfold detectar_entrada_5m, mean_amplitude.
  replace (length ks <? 15) with false by (symmetry; apply Nat.ltb_ge; lia).
  destruct (py_index (percent_b bb) (-2)) as [pb|]; [|reflexivity].
  cbn [mbind result_bind rbind].
  destruct (rmap (amplitude ks) [-4; -3; -2]%Z) as [amps|]; [|reflexivity].
  cbn [mbind result_bind rbind]. rewrite Hf.
  destruct (_ && _); [reflexivity|].
  destruct (_ && _); reflexivity.
Qed.

(** The candle in progress, the last of the series, is never read. *)
Lemma py_index_app_neg {A} (pre : list A) (x : A) (k : nat) :
  1 <= k -> k <= length pre ->
  py_index (pre ++ [x]) (- Z.of_nat (S k)) = py_index pre (- Z.of_nat k).
Proof.
  intros Hk Hl.
  rewrite !py_index_neg by (rewrite ?length_app; cbn; lia).
  rewrite length_app. cbn [length].
  rewrite lookup_app_l by lia.
  replace (length pre + 1 - S k) with (length pre - k) by lia. reflexivity.
Qed.

(** Replacing the last candle does not change the answer. *)
Lemma detectar_entrada_5m_ignora_ultimo (pre : list (Candle F)) x y (bb : option (BandSet F)) :
  14 <= length pre ->
  detectar_entrada_5m (pre ++ [x]) bb = detectar_entrada_5m (pre ++ [y]) bb.
Proof.
  intros H. unfold detectar_entrada_5m, amplitude, rmap.
  rewrite !length_app. cbn [length].
  change (-4)%Z with (- Z.of_nat 4)%Z. change (-3)%Z with (- Z.of_nat 3)%Z.
  change (-2)%Z with (- Z.of_nat 2)%Z.
  rewrite !py_index_app_neg by lia. reflexivity.
Qed.
End Entrada.



Section EntradaExcecoes.
Context {F : Type} {num : Numero F}.

(** A band set that [calcular] returns has [len - period + 1] values of
    percentB, for a period between 1 and [len]. *)
Lemma calcular_Some_length (ks : list (Candle F)) P d bb :
  calcular ks P d = Ok (Some bb) ->
  1 <= P /\ P <= length ks /\ length (percent_b bb) = length ks - P + 1.
Proof.
  intros H.
  assert (HN : P <= length ks).
  { destruct (Nat.ltb_spec (length ks) P) as [Hlt|Hge]; [|exact Hge].
    unfold calcular in H.
    replace (length ks <? P) with true in H by (symmetry; apply Nat.ltb_lt; lia).
    discriminate H. }
  assert (HP : 1 <= P).
  { destruct P as [|P]; [|lia]. unfold calcular in H. cbn in H.
    destruct (map k_close ks); discriminate H. }
  destruct (calcular_lookup ks P d HP HN) as (bb' & Hb & _ & _ & _ & Hl & _).
  rewrite Hb in H. inversion H; subst bb'. auto.
Qed.

(** With non-zero open prices the three amplitudes are computed. *)
Lemma rmap_amplitude_Ok (ks : list (Candle F)) :
  4 <= length ks ->
  (forall i k, In i [-4; -3; -2]%Z -> py_index ks i = Ok k ->
               (k_open k ==. of_Z 0) = false) ->
  exists amps, rmap (amplitude ks) [-4; -3; -2]%Z = Ok amps.
Proof.
  intros Hlen Hopen.
  destruct (py_index_neg_Ok ks 4) as (k4 & _ & H4); [lia | lia |].
  destruct (py_index_neg_Ok ks 3) as (k3 & _ & H3); [lia | lia |].
  destruct (py_index_neg_Ok ks 2) as (k2 & _ & H2); [lia | lia |].
  change (- Z.of_nat 4)%Z with (-4)%Z in H4.
  change (- Z.of_nat 3)%Z with (-3)%Z in H3.
  change (- Z.of_nat 2)%Z with (-2)%Z in H2.
  unfold rmap, amplitude, py_truediv. rewrite H4, H3, H2.
  cbn [mbind result_bind rbind].
  rewrite (Hopen (-4)%Z k4), (Hopen (-3)%Z k3), (Hopen (-2)%Z k2);
    cbn; auto.
  eexists. reflexivity.
Qed.
End EntradaExcecoes.

(** C3, what the code does: with the bands computed from the same series
    of 15 candles or more, the entry detector raises [IndexError] when the
    series has exactly [period] candles (one band value only); with more
    candles than the period it does not raise [IndexError], and it returns
    a result when the open prices of the candles at -4, -3, -2 are not
    zero. *)
Theorem entrada_5m_excecoes :
  forall F (num : Numero F) (ks : list (Candle F)) P d bb,
  15 <= length ks -> calcular ks P d = Ok (Some bb) ->
  (length ks = P -> detectar_entrada_5m ks (Some bb) = Raise IndexError) /\
  (P < length ks -> detectar_entrada_5m ks (Some bb) <> Raise IndexError) /\
  (P < length ks ->
   (forall i k, In i [-4; -3; -2]%Z -> py_index ks i = Ok k ->
                (k_open k ==. of_Z 0) = false) ->
   exists r, detectar_entrada_5m ks (Some bb) = Ok r).
Proof.
  intros F num ks P d bb Hlen Hb.
  destruct (calcular_Some_length ks P d bb Hb) as (HP & HN & Hl).
  destruct (py_index_neg_Ok ks 2) as (fechado & _ & Hf); [lia | lia |].
  change (- Z.of_nat 2)%Z with (-2)%Z in Hf.
  rewrite (detectar_entrada_5m_eq ks bb fechado Hlen Hf).
  split; [|split].
  - intros HeqP. change (-2)%Z with (- Z.of_nat 2)%Z.
    rewrite py_index_neg_raise by lia. reflexivity.
  - intros Hlt.
    destruct (py_index_neg_Ok (percent_b bb) 2) as (pb & _ & Hpb); [lia | lia |].
    change (- Z.of_nat 2)%Z with (-2)%Z in Hpb. rewrite Hpb.
    cbn [mbind result_bind rbind]. unfold mean_amplitude.
    assert (Hamp : forall e i, amplitude ks i = Raise e -> In i [-4; -3; -2]%Z ->
                     e = ZeroDivisionError).
    { intros e i He Hi. unfold amplitude, py_truediv in He.
      assert (exists k, py_index ks i = Ok k) as [k Hk].
      { destruct Hi as [<-|[<-|[<-|[]]]].
        - destruct (py_index_neg_Ok ks 4) as (k & _ & Hk); [lia | lia | eauto].
        - destruct (py_index_neg_Ok ks 3) as (k & _ & Hk); [lia | lia | eauto].
        - destruct (py_index_neg_Ok ks 2) as (k & _ & Hk); [lia | lia | eauto]. }
      rewrite Hk in He. cbn [mbind result_bind rbind] in He.
      destruct (_ ==. _); inversion He. reflexivity. }
    unfold rmap.
    destruct (amplitude ks (-4)) as [a4|e4] eqn:E4.
    2:{ cbn. rewrite (Hamp e4 (-4)%Z E4) by (cbn; auto). discriminate. }
    destruct (amplitude ks (-3)) as [a3|e3] eqn:E3.
    2:{ cbn. rewrite (Hamp e3 (-3)%Z E3) by (cbn; auto). discriminate. }
    destruct (amplitude ks (-2)) as [a2|e2] eqn:E2.
    2:{ cbn. rewrite (Hamp e2 (-2)%Z E2) by (cbn; auto). discriminate. }
    cbn. discriminate.
  - intros Hlt Hopen.
    destruct (py_index_neg_Ok (percent_b bb) 2) as (pb & _ & Hpb); [lia | lia |].
    change (- Z.of_nat 2)%Z with (-2)%Z in Hpb. rewrite Hpb.
    destruct (rmap_amplitude_Ok ks) as (amps & Ha); [lia | exact Hopen |].
    unfold mean_amplitude. rewrite Ha. cbn [mbind result_bind rbind].
    eexists. reflexivity.
Qed.

(** The failing input: twenty candles and the bands of period 20 computed
    from them. *)
Lemma entrada_5m_excecoes_witness :
  length velas_5m_vinte = 20 /\
  exists bb, calcular velas_5m_vinte 20 2%float = Ok (Some bb) /\
    length (percent_b bb) = 1 /\
    detectar_entrada_5m velas_5m_vinte (Some bb) = Raise IndexError.
Proof.
  split; [reflexivity|].
  eexists. split; [vm_compute; reflexivity|]. split; [reflexivity|].
  apply (entrada_5m_excecoes float _ velas_5m_vinte 20 2%float).
  - vm_compute. lia.
  - vm_compute. reflexivity.
  - reflexivity.
Defined.

(** The same input reaches the detector through [confirmar_sinal]. *)
Example confirmar_sinal_vinte_velas :
  confirmar_sinal binance_vinte "31/01 10:00:00" "BTCUSDT" = Raise IndexError.
Proof. vm_compute. reflexivity. Qed.



(** A remark on rounding.  With the sums of [np.convolve] taken left to
    right, the constant series at 101 has its middle band one step below
    101 (the weight 0.05 is not exactly 1/20) while the deviation is
    exactly zero: the bands coincide below the close, percentB is
    [+infinity], and the detector answers an upper touch on a flat market.
    Whether numpy's own order of additions rounds this sum the same way is
    outside the source; the claims' theorems do not rest on it. *)
Example serie_constante_101 :
  exists bb, calcular velas_5m_constantes_101 20 2%float = Ok (Some bb) /\
    superior bb = inferior bb /\
    percent_b bb = [infinity; infinity; infinity] /\
    exists ev, detectar_entrada_5m velas_5m_constantes_101 (Some bb) = Ok (Some ev) /\
               ee_tipo ev = lateralizacao_superior.
Proof.
  eexists. split; [vm_compute; reflexivity|].
  cbn [superior inferior percent_b]. repeat split.
  eexists. split; vm_compute; reflexivity.
Qed.


(** ** The confirmation step *)

Section Confirmacao.
Context {F : Type} {num : Numero F}.

(** A resistance zone with an upper touch, zone price not zero. *)
Lemma confirmar_alinhamento_venda symbol agora (c : ContextZone F) (e : EntryEvent F) :
  cz_tipo c = resistencia -> ee_tipo e = lateralizacao_superior ->
  (cz_preco_zona c ==. of_Z 0) = false ->
  confirmar_alinhamento symbol agora c e =
  Ok (Some {| acao := VENDA; symbol := symbol;
              preco_entrada := ee_preco_atual e;
              preco_zona := cz_preco_zona c;
              risco_percentual :=
                nabs ((cz_preco_zona c ⊖ ee_preco_atual e) ⊘ cz_preco_zona c)
                ⊗ of_Z 100;
              forca_volume := cz_forca_volume c;
              timestamp := agora;
              timeframe_contexto := "1h"; timeframe_entrada := "5m";
              confianca := if dec 15 10 <. cz_forca_volume c then ALTA else MEDIA |}).
Proof.
  intros Hc He Hz. unfold confirmar_alinhamento, py_truediv, confianca_de.
  rewrite Hc, He, Hz. reflexivity.
Qed.

(** Whatever the confirmation returns as a signal comes from an aligned
    pair, with the action of that pair. *)
Lemma confirmar_alinhamento_Some symbol agora (c : ContextZone F) (e : EntryEvent F) s :
  confirmar_alinhamento symbol agora c e = Ok (Some s) ->
  (cz_tipo c = resistencia /\ ee_tipo e = lateralizacao_superior /\ acao s = VENDA)
  \/ (cz_tipo c = suporte /\ ee_tipo e = lateralizacao_inferior /\ acao s = COMPRA).
Proof.
  unfold confirmar_alinhamento, py_truediv.
  destruct (cz_tipo c), (ee_tipo e); try discriminate;
    destruct (_ ==. _); try discriminate;
    cbn; intros H; desfaz; cbn; auto.
Qed.

(** A misaligned pair gives no signal. *)
Lemma confirmar_alinhamento_desalinhado symbol agora (c : ContextZone F) (e : EntryEvent F) :
  alinhados (cz_tipo c) (ee_tipo e) = false ->
  confirmar_alinhamento symbol agora c e = Ok None.
Proof.
  unfold confirmar_alinhamento.
  destruct (cz_tipo c), (ee_tipo e); cbn; try discriminate; reflexivity.
Qed.
End Confirmacao.

(** C2, as amended: on a resistance zone and an upper touch, with a zone
    price that is not zero, the confirmation returns a SELL signal whose
    risk is [|(zone - entry) / zone| * 100] -- on floats, for a positive
    zone price, exactly [|zone - entry| / zone * 100] -- and whose
    confidence is HIGH when the volume strength is strictly above 1.5 and
    MEDIUM otherwise.  For zone 100, entry 98 and volume strength exactly
    1.5 it returns SELL with risk 2.0 and confidence MEDIUM. *)
Theorem confirmacao_venda :
  (forall F (num : Numero F) symbol agora (c : ContextZone F) (e : EntryEvent F),
     cz_tipo c = resistencia -> ee_tipo e = lateralizacao_superior ->
     (cz_preco_zona c ==. of_Z 0) = false ->
     exists s, confirmar_alinhamento symbol agora c e = Ok (Some s) /\
       acao s = VENDA /\
       risco_percentual s =
         nabs ((cz_preco_zona c ⊖ ee_preco_atual e) ⊘ cz_preco_zona c) ⊗ of_Z 100 /\
       confianca s = if dec 15 10 <. cz_forca_volume c then ALTA else MEDIA) /\
  (forall symbol agora (c : ContextZone float) (e : EntryEvent float),
     cz_tipo c = resistencia -> ee_tipo e = lateralizacao_superior ->
     (0 <? cz_preco_zona c)%float = true ->
     exists s, confirmar_alinhamento symbol agora c e = Ok (Some s) /\
       acao s = VENDA /\
       risco_percentual s =
         (abs (cz_preco_zona c - ee_preco_atual e) / cz_preco_zona c * 100)%float /\
       confianca s = if (1.5 <? cz_forca_volume c)%float then ALTA else MEDIA) /\
  (forall symbol agora (c : ContextZone float) (e : EntryEvent float),
     cz_tipo c = resistencia -> ee_tipo e = lateralizacao_superior ->
     cz_preco_zona c = 100%float -> ee_preco_atual e = 98%float ->
     cz_forca_volume c = 1.5%float ->
     exists s, confirmar_alinhamento symbol agora c e = Ok (Some s) /\
       acao s = VENDA /\ risco_percentual s = 2%float /\ confianca s = MEDIA).
Proof.
  split; [|split].
  - intros F num symbol agora c e Hc He Hz.
    rewrite (confirmar_alinhamento_venda symbol agora c e Hc He Hz).
    eexists. repeat split.
  - intros symbol agora c e Hc He Hz.
    assert (Hz' : (cz_preco_zona c ==. of_Z 0) = false)
      by exact (pos_neq_zero _ Hz).
    rewrite (confirmar_alinhamento_venda symbol agora c e Hc He Hz').
    eexists. split; [reflexivity|]. split; [reflexivity|]. split; [|reflexivity].
    cbn. rewrite (abs_div_pos _ _ Hz). reflexivity.
  - intros symbol agora c e Hc He Hz Hp Hf.
    rewrite (confirmar_alinhamento_venda symbol agora c e Hc He)
      by (rewrite Hz; vm_compute; reflexivity).
    eexists. split; [reflexivity|]. cbn. rewrite Hz, Hp, Hf.
    repeat split; vm_compute; reflexivity.
Qed.

Lemma confirmacao_venda_witness :
  exists s, confirmar_alinhamento "BTCUSDT" "31/01 10:00:00" zona_100_forte toque_98
            = Ok (Some s) /\
    acao s = VENDA /\
    risco_percentual s = 2%float /\
    confianca s = ALTA.
Proof.
  destruct confirmacao_venda as (_ & H & _).
  destruct (H "BTCUSDT" "31/01 10:00:00" zona_100_forte toque_98)
    as (s & Hs & Ha & Hr & Hc); try reflexivity.
  exists s. split; [exact Hs|]. split; [exact Ha|]. split.
  - rewrite Hr. vm_compute. reflexivity.
  - rewrite Hc. vm_compute. reflexivity.
Defined.

(** At volume strength exactly 1.5 the confidence of the SELL signal for
    zone 100 and entry 98 is MEDIUM, not HIGH. *)
Lemma confianca_no_limite :
  exists s, confirmar_alinhamento "BTCUSDT" "31/01 10:00:00" zona_100 toque_98
            = Ok (Some s) /\
    acao s = VENDA /\ risco_percentual s = 2%float /\
    confianca s = MEDIA /\ confianca s <> ALTA.
Proof.
  eexists. split; [vm_compute; reflexivity|].
  cbn. repeat split; try discriminate.
Qed.

Section ConfirmacaoCompleta.
Context {F : Type} {num : Numero F}.

(** What a confirmed signal of [confirmar_sinal] rests on. *)
Lemma confirmar_sinal_Some obter_klines agora symbol (s : Signal F) :
  confirmar_sinal obter_klines agora symbol = Ok (Some s) ->
  exists klines_1h klines_5m bb c e,
    obter_klines symbol "1h" 50 = Some klines_1h /\
    obter_klines symbol "5m" 50 = Some klines_5m /\
    calcular klines_5m 20 (of_Z 2) = Ok (Some bb) /\
    detectar_contexto_1h klines_1h = Ok (Some c) /\
    detectar_entrada_5m klines_5m (Some bb) = Ok (Some e) /\
    confirmar_alinhamento symbol agora c e = Ok (Some s).
Proof.
  unfold confirmar_sinal.
  destruct (obter_klines symbol "1h" 50) as [[|k1 t1]|] eqn:E1; try discriminate.
  destruct (obter_klines symbol "5m" 50) as [[|k5 t5]|] eqn:E5; try discriminate.
  destruct (calcular (k5 :: t5) 20 (of_Z 2)) as [[bb|]|] eqn:Eb; try discriminate.
  cbn [mbind result_bind rbind].
  destruct (detectar_contexto_1h (k1 :: t1)) as [[c|]|] eqn:Ec; try discriminate.
  cbn [mbind result_bind rbind].
  destruct (detectar_entrada_5m (k5 :: t5) (Some bb)) as [[e|]|] eqn:Ee;
    try discriminate.
  cbn [mbind result_bind rbind confirmar_classificacoes].
  intros H. exists (k1 :: t1), (k5 :: t5), bb, c, e.
  repeat split; assumption.
Qed.
End ConfirmacaoCompleta.

(** C7: a signal comes only from a resistance zone with an upper touch
    (SELL) or a support zone with a lower touch (BUY); any other pairing,
    and any absent classification, gives [None]; and a signal returned by
    [confirmar_sinal] itself rests on two classifications found by the
    detectors that are aligned in one of these two ways. *)
Theorem sinal_so_de_par_alinhado :
  forall F (num : Numero F),
  (forall symbol agora (contexto : option (ContextZone F))
          (entrada : option (EntryEvent F)) s,
     confirmar_classificacoes symbol agora contexto entrada = Ok (Some s) ->
     exists c e, contexto = Some c /\ entrada = Some e /\
       ((cz_tipo c = resistencia /\ ee_tipo e = lateralizacao_superior /\ acao s = VENDA)
        \/ (cz_tipo c = suporte /\ ee_tipo e = lateralizacao_inferior /\ acao s = COMPRA))) /\
  (forall symbol agora (c : ContextZone F) (e : EntryEvent F),
     alinhados (cz_tipo c) (ee_tipo e) = false ->
     confirmar_classificacoes symbol agora (Some c) (Some e) = Ok None) /\
  (forall symbol agora (contexto : option (ContextZone F))
          (entrada : option (EntryEvent F)),
     contexto = None \/ entrada = None ->
     confirmar_classificacoes symbol agora contexto entrada = Ok None) /\
  (forall obter_klines agora symbol (s : Signal F),
     confirmar_sinal obter_klines agora symbol = Ok (Some s) ->
     exists klines_1h klines_5m bb c e,
       obter_klines symbol "1h" 50 = Some klines_1h /\
       obter_klines symbol "5m" 50 = Some klines_5m /\
       calcular klines_5m 20 (of_Z 2) = Ok (Some bb) /\
       detectar_contexto_1h klines_1h = Ok (Some c) /\
       detectar_entrada_5m klines_5m (Some bb) = Ok (Some e) /\
       alinhados (cz_tipo c) (ee_tipo e) = true /\
       acao s = match cz_tipo c with resistencia => VENDA | suporte => COMPRA end).
Proof.
  intros F num. split; [|split; [|split]].
  - intros symbol agora [c|] [e|] s H; try discriminate H.
    exists c, e. split; [reflexivity|]. split; [reflexivity|].
    exact (confirmar_alinhamento_Some symbol agora c e s H).
  - intros symbol agora c e H. cbn. apply confirmar_alinhamento_desalinhado, H.
  - intros symbol agora [c|] [e|] [H|H]; try discriminate H; reflexivity.
  - intros obter_klines agora symbol s H.
    destruct (confirmar_sinal_Some _ _ _ _ H)
      as (k1 & k5 & bb & c & e & H1 & H5 & Hb & Hc & He & Ha).
    exists k1, k5, bb, c, e. repeat (split; [assumption|]).
    destruct (confirmar_alinhamento_Some _ _ _ _ _ Ha) as [(-> & -> & ->)|(-> & -> & ->)];
      split; reflexivity.
Qed.

Lemma sinal_so_de_par_alinhado_witness :
  confirmar_classificacoes "BTCUSDT" "31/01 10:00:00"
    (Some zona_100) (Some toque_baixo_98) = Ok None.
Proof.
  apply (proj1 (proj2 (sinal_so_de_par_alinhado float _))). reflexivity.
Defined.

(** ** The alert gate *)

Section AlertaFacts.
Context {F : Type}.
Implicit Types (amb : Ambiente) (sinal : Signal F) (self : TelegramAlerta F).

(** A key already sent: nothing happens. *)
Lemma enviar_sinal_duplicado amb sinal self :
  chave_unica sinal ∈ alertas_enviados self ->
  enviar_sinal amb sinal self = (false, self).
Proof.
  intros H. unfold enviar_sinal. rewrite bool_decide_eq_true_2 by exact H.
  reflexivity.
Qed.

(** A new key whose delivery fails: nothing happens either. *)
Lemma enviar_sinal_falha amb sinal self :
  entregue amb = false ->
  enviar_sinal amb sinal self = (false, self).
Proof.
  intros H. unfold enviar_sinal. case_bool_decide; [reflexivity|].
  unfold entregue in H. unfold tentar, ler_chat_id, bot_send_message.
  destruct (CHAT_ID amb); try reflexivity.
  cbn. destruct (send_message amb); [discriminate H|reflexivity].
Qed.

(** A new key that is delivered: the message reaches the chat and the key
    is kept; the call answers [True] when the audit line is written too. *)
Lemma enviar_sinal_entregue amb sinal self :
  chave_unica sinal ∉ alertas_enviados self ->
  entregue amb = true ->
  exists n, CHAT_ID amb = chat_de n /\
    enviar_sinal amb sinal self =
    match escrita amb with
    | Ok _ =>
      (true, {| alertas_enviados := {[chave_unica sinal]} ∪ alertas_enviados self;
                mensagens := mensagens self ++ [(n, sinal)];
                historico_sinais := historico_sinais self ++ [(agora_iso amb, sinal)] |})
    | Raise _ =>
      (false, {| alertas_enviados := {[chave_unica sinal]} ∪ alertas_enviados self;
                 mensagens := mensagens self ++ [(n, sinal)];
                 historico_sinais := historico_sinais self |})
    end.
Proof.
  intros Hk He. unfold entregue in He. unfold enviar_sinal.
  rewrite bool_decide_eq_false_2 by exact Hk.
  unfold tentar, ler_chat_id, bot_send_message, gravar_historico.
  destruct (CHAT_ID amb) as [| |n]; try discriminate He.
  exists n. split; [reflexivity|].
  destruct (send_message amb) as [[]|]; [|discriminate He].
  cbn. destruct (escrita amb) as [[]|]; reflexivity.
Qed.

(** The set of keys only grows. *)
Lemma enviar_sinal_mono amb sinal self :
  alertas_enviados self ⊆ alertas_enviados (snd (enviar_sinal amb sinal self)).
Proof.
  destruct (decide (chave_unica sinal ∈ alertas_enviados self)) as [Hk|Hk].
  - rewrite enviar_sinal_duplicado by exact Hk. reflexivity.
  - destruct (entregue amb) eqn:He.
    + destruct (enviar_sinal_entregue amb sinal self Hk He) as (n & _ & ->).
      destruct (escrita amb); cbn; set_solver.
    + rewrite enviar_sinal_falha by exact He. reflexivity.
Qed.

(** ... over any number of calls. *)
Lemma enviar_todos_mono chamadas self :
  alertas_enviados self ⊆ alertas_enviados (enviar_todos chamadas self).
Proof.
  revert self. induction chamadas as [|[amb sinal] resto IH]; intros self; cbn.
  - reflexivity.
  - etransitivity; [apply (enviar_sinal_mono amb sinal)|apply IH].
Qed.

(** A call that answers [True] has recorded its key. *)
Lemma enviar_sinal_true amb sinal self self' :
  enviar_sinal amb sinal self = (true, self') ->
  (chave_unica sinal ∉ alertas_enviados self) /\
  entregue amb = true /\ escrita amb = Ok tt /\
  (chave_unica sinal ∈ alertas_enviados self').
Proof.
  intros H.
  destruct (decide (chave_unica sinal ∈ alertas_enviados self)) as [Hk|Hk].
  { rewrite enviar_sinal_duplicado in H by exact Hk. discriminate H. }
  destruct (entregue amb) eqn:He.
  2:{ rewrite enviar_sinal_falha in H by exact He. discriminate H. }
  destruct (enviar_sinal_entregue amb sinal self Hk He) as (n & _ & Hs).
  rewrite Hs in H. destruct (escrita amb) as [[]|]; [|discriminate H].
  inversion H; subst self'. cbn. repeat split; try assumption. set_solver.
Qed.

(** The invariant holds at start and is kept by every call. *)
Lemma gate_inv_novo : gate_inv (F:=F) novo_alerta.
Proof.
  split; cbn; [constructor|]. intros m Hm. inversion Hm.
Qed.

Lemma gate_inv_enviar amb sinal self :
  gate_inv self -> gate_inv (snd (enviar_sinal amb sinal self)).
Proof.
  intros [Hnd Hin].
  destruct (decide (chave_unica sinal ∈ alertas_enviados self)) as [Hk|Hk].
  { rewrite enviar_sinal_duplicado by exact Hk. split; assumption. }
  destruct (entregue amb) eqn:He.
  2:{ rewrite enviar_sinal_falha by exact He. split; assumption. }
  destruct (enviar_sinal_entregue amb sinal self Hk He) as (n & _ & ->).
  assert (Hnew : NoDup (map (fun m => chave_unica (snd m))
                          (mensagens self ++ [(n, sinal)]))).
  { rewrite map_app. cbn. apply NoDup_app. split; [exact Hnd|]. split.
    - intros k Hk1 Hk2. apply list_elem_of_singleton in Hk2. subst k.
      apply list_elem_of_fmap in Hk1 as (m & Hm1 & Hm2).
      apply Hk. rewrite Hm1. apply Hin, Hm2.
    - apply NoDup_singleton. }
  assert (Hall : forall m, m ∈ mensagens self ++ [(n, sinal)] ->
                   chave_unica (snd m) ∈ {[chave_unica sinal]} ∪ alertas_enviados self).
  { intros m Hm. apply elem_of_app in Hm as [Hm|Hm].
    - apply elem_of_union_r, Hin, Hm.
    - apply list_elem_of_singleton in Hm. subst m. cbn. set_solver. }
  destruct (escrita amb); split; assumption.
Qed.

Lemma gate_inv_todos chamadas self :
  gate_inv self -> gate_inv (enviar_todos chamadas self).
Proof.
  revert self. induction chamadas as [|[amb sinal] resto IH]; intros self H; cbn.
  - exact H.
  - apply IH, gate_inv_enviar, H.
Qed.

(** Appending to one prefix is injective. *)
Lemma append_inj_prefix (p a b : string) :
  (p ++ a)%string = (p ++ b)%string -> a = b.
Proof.
  induction p as [|ch p IH]; cbn; intros H; [exact H|].
  inversion H. auto.
Qed.

(** Two signals of one instrument and one action have the same key
    exactly when they have the same day. *)
Lemma chave_unica_data sinal1 sinal2 :
  symbol sinal2 = symbol sinal1 -> acao sinal2 = acao sinal1 ->
  (chave_unica sinal2 = chave_unica sinal1
   <-> data_do_sinal sinal2 = data_do_sinal sinal1).
Proof.
  intros Hs Ha. unfold chave_unica. rewrite Hs, Ha. split.
  - intros H. do 4 apply append_inj_prefix in H. exact H.
  - intros ->. reflexivity.
Qed.
End AlertaFacts.

(** C9, as amended: no two messages delivered in one process carry the
    same instrument, action and day; once a call has answered [True] for a
    signal, every later call of the process for a signal of the same
    instrument, action and day answers [False] and leaves the state as it
    is; and a signal of the same instrument and action on another day,
    whose key was not recorded before, answers [True] and has its key
    recorded when its delivery and its audit line succeed. *)
Theorem gate_um_sinal_por_dia :
  forall F,
  (forall chamadas : list (Ambiente * Signal F),
     NoDup (map (fun m => chave_unica (snd m))
                (mensagens (enviar_todos chamadas novo_alerta)))) /\
  (forall amb1 (sinal1 : Signal F) self self1,
     enviar_sinal amb1 sinal1 self = (true, self1) ->
     forall chamadas amb2 sinal2,
       symbol sinal2 = symbol sinal1 -> acao sinal2 = acao sinal1 ->
       data_do_sinal sinal2 = data_do_sinal sinal1 ->
       enviar_sinal amb2 sinal2 (enviar_todos chamadas self1)
       = (false, enviar_todos chamadas self1)) /\
  (forall amb1 (sinal1 : Signal F) self self1,
     enviar_sinal amb1 sinal1 self = (true, self1) ->
     forall amb3 sinal3,
       symbol sinal3 = symbol sinal1 -> acao sinal3 = acao sinal1 ->
       data_do_sinal sinal3 <> data_do_sinal sinal1 ->
       chave_unica sinal3 ∉ alertas_enviados self ->
       entregue amb3 = true -> escrita amb3 = Ok tt ->
       exists self3, enviar_sinal amb3 sinal3 self1 = (true, self3) /\
                     chave_unica sinal3 ∈ alertas_enviados self3).
Proof.
  intros F. split; [|split].
  - intros chamadas. apply (gate_inv_todos chamadas novo_alerta gate_inv_novo).
  - intros amb1 sinal1 self self1 H1 chamadas amb2 sinal2 Hs Ha Hd.
    apply enviar_sinal_duplicado.
    apply (enviar_todos_mono chamadas self1).
    rewrite (proj2 (chave_unica_data sinal1 sinal2 Hs Ha) Hd).
    apply (enviar_sinal_true amb1 sinal1 self self1 H1).
  - intros amb1 sinal1 self self1 H1 amb3 sinal3 Hs Ha Hd Hk He Hw.
    assert (Hk1 : chave_unica sinal3 ∉ alertas_enviados self1).
    { destruct (enviar_sinal_true amb1 sinal1 self self1 H1) as (Hn & He1 & Hw1 & _).
      destruct (enviar_sinal_entregue amb1 sinal1 self Hn He1) as (n & _ & Hs1).
      rewrite Hs1, Hw1 in H1. inversion H1; subst self1. cbn.
      intros Hin. apply elem_of_union in Hin as [Hin|Hin]; [|exact (Hk Hin)].
      apply elem_of_singleton in Hin.
      apply Hd, (chave_unica_data sinal1 sinal3 Hs Ha), Hin. }
    destruct (enviar_sinal_entregue amb3 sinal3 self1 Hk1 He) as (n & _ & Hs3).
    rewrite Hw in Hs3. eexists. split; [exact Hs3|]. cbn. set_solver.
Qed.

Lemma gate_um_sinal_por_dia_witness :
  let self1 := snd (enviar_sinal (ambiente_bom "2026-01-31T10:00:00")
                      (venda_btc "31/01 10:00:00") novo_alerta) in
  enviar_sinal (ambiente_bom "2026-01-31T15:00:00") (venda_btc "31/01 15:00:00") self1
  = (false, self1) /\
  exists self3,
    enviar_sinal (ambiente_bom "2026-02-01T10:00:00") (venda_btc "01/02 10:00:00") self1
    = (true, self3) /\
    chave_unica (venda_btc "01/02 10:00:00") ∈ alertas_enviados self3.
Proof.
  destruct (gate_um_sinal_por_dia float) as (_ & H2 & H3).
  assert (H1 : enviar_sinal (ambiente_bom "2026-01-31T10:00:00")
                 (venda_btc "31/01 10:00:00") novo_alerta
               = (true, snd (enviar_sinal (ambiente_bom "2026-01-31T10:00:00")
                               (venda_btc "31/01 10:00:00") novo_alerta))).
  { unfold enviar_sinal. rewrite bool_decide_eq_false_2 by apply not_elem_of_empty.
    reflexivity. }
  split.
  - apply (H2 _ _ _ _ H1 []); reflexivity.
  - apply (H3 _ _ _ _ H1); try reflexivity.
    + discriminate.
    + apply not_elem_of_empty.
Defined.

(** After a delivered signal of 31/01, the signal of the next day whose
    delivery fails is answered [False] and is not recorded. *)
Lemma gate_dia_seguinte_sem_entrega :
  let self1 := snd (enviar_sinal (ambiente_bom "2026-01-31T10:00:00")
                      (venda_btc "31/01 10:00:00") novo_alerta) in
  fst (enviar_sinal (ambiente_bom "2026-01-31T10:00:00")
         (venda_btc "31/01 10:00:00") novo_alerta) = true /\
  enviar_sinal (ambiente_telegram_fora "2026-02-01T10:00:00")
    (venda_btc "01/02 10:00:00") self1 = (false, self1) /\
  (chave_unica (venda_btc "01/02 10:00:00") ∉ alertas_enviados self1).
Proof.
  cbv zeta.
  destruct (enviar_sinal_entregue (ambiente_bom "2026-01-31T10:00:00")
              (venda_btc "31/01 10:00:00") novo_alerta) as (n & _ & Hs);
    [apply not_elem_of_empty | reflexivity |].
  rewrite Hs. cbn [escrita ambiente_bom fst snd alertas_enviados novo_alerta].
  split; [reflexivity|]. split.
  - apply enviar_sinal_falha. reflexivity.
  - intros H. apply elem_of_union in H as [H|H].
    + apply elem_of_singleton in H. discriminate H.
    + exact (not_elem_of_empty _ H).
Qed.

(** C10: when the delivery fails (no [CHAT_ID], a [CHAT_ID] that is not an
    integer, or an exception of [bot.send_message]), [enviar_sinal] answers
    [False] and leaves keys, chat and audit file as they were; a key newly
    recorded or an audit line newly written implies the message was
    delivered; and after a failed attempt a signal with the same key is
    still sent, and answers [True], once the delivery works. *)
Theorem falha_de_entrega_nao_registra :
  forall F (amb : Ambiente) (sinal : Signal F) (self : TelegramAlerta F),
  (entregue amb = false -> enviar_sinal amb sinal self = (false, self)) /\
  (alertas_enviados (snd (enviar_sinal amb sinal self)) <> alertas_enviados self ->
   entregue amb = true) /\
  (historico_sinais (snd (enviar_sinal amb sinal self)) <> historico_sinais self ->
   entregue amb = true) /\
  (entregue amb = false ->
   chave_unica sinal ∉ alertas_enviados self ->
   forall amb' sinal',
     chave_unica sinal' = chave_unica sinal ->
     entregue amb' = true -> escrita amb' = Ok tt ->
     fst (enviar_sinal amb' sinal' (snd (enviar_sinal amb sinal self))) = true).
Proof.
  intros F amb sinal self.
  assert (Hf : entregue amb = false -> enviar_sinal amb sinal self = (false, self))
    by apply enviar_sinal_falha.
  split; [exact Hf|]. split; [|split].
  - intros H. destruct (entregue amb); [reflexivity|].
    rewrite Hf in H by reflexivity. contradiction H. reflexivity.
  - intros H. destruct (entregue amb); [reflexivity|].
    rewrite Hf in H by reflexivity. contradiction H. reflexivity.
  - intros He Hk amb' sinal' Hc He' Hw'.
    rewrite (Hf He). cbn [snd].
    destruct (enviar_sinal_entregue amb' sinal' self) as (n & _ & ->);
      [rewrite Hc; exact Hk | exact He' |].
    rewrite Hw'. reflexivity.
Qed.

Lemma falha_de_entrega_nao_registra_witness :
  enviar_sinal (ambiente_telegram_fora "2026-01-31T10:00:00")
    (venda_btc "31/01 10:00:00") novo_alerta = (false, novo_alerta) /\
  enviar_sinal (ambiente_sem_chat "2026-01-31T10:05:00")
    (venda_btc "31/01 10:05:00") novo_alerta = (false, novo_alerta) /\
  fst (enviar_sinal (ambiente_bom "2026-01-31T10:10:00") (venda_btc "31/01 10:10:00")
         (snd (enviar_sinal (ambiente_telegram_fora "2026-01-31T10:00:00")
                 (venda_btc "31/01 10:00:00") novo_alerta))) = true.
Proof.
  split; [|split].
  - apply (falha_de_entrega_nao_registra float). reflexivity.
  - apply (falha_de_entrega_nao_registra float). reflexivity.
  - apply (falha_de_entrega_nao_registra float); try reflexivity.
    apply not_elem_of_empty.
Defined.

(** * Further properties *)

(** ** The bands and the entry detector on one series *)

Section Alinhamento.
Context {F : Type} {num : Numero F}.

(** The window of [P] closes that ends at the candle at -2. *)
Lemma percent_b_menos_dois (ks : list (Candle F)) P d bb :
  calcular ks P d = Ok (Some bb) -> P < length ks ->
  exists fechado,
    py_index ks (-2) = Ok fechado /\
    let w := py_slice (length ks - P - 1) (length ks - 1) (map k_close ks) in
    let m := sma_janela P w in
    let sup := m ⊕ d ⊗ np_std w in
    let inf := m ⊖ d ⊗ np_std w in
    length w = P /\
    w !! (P - 1) = Some (k_close fechado) /\
    py_index (percent_b bb) (-2) = Ok ((k_close fechado ⊖ inf) ⊘ (sup ⊖ inf)).
Proof.
  intros Hb Hlt.
  destruct (calcular_Some_length ks P d bb Hb) as (HP & HN & Hl).
  destruct (calcular_lookup ks P d HP HN) as (bb' & Hb' & _ & _ & _ & _ & _ & _ & Hi).
  rewrite Hb in Hb'. inversion Hb'; subst bb'. clear Hb'.
  destruct (py_index_neg_Ok ks 2) as (fechado & Hk & Hf); [lia | lia |].
  exists fechado. split; [exact Hf|].
  destruct (Hi (length ks - P - 1)) as (c & Hc & _ & _ & _ & Hp); [lia|].
  replace (length ks - P - 1 + P) with (length ks - 1) in Hp by lia.
  replace (length ks - P - 1 + P - 1) with (length ks - 2) in Hc by lia.
  assert (Hcf : c = k_close fechado).
  { change (map k_close ks) with (k_close <$> ks) in Hc.
    rewrite list_lookup_fmap, Hk in Hc. cbn in Hc. congruence. }
  subst c. cbv zeta.
  split. { rewrite length_py_slice by (rewrite length_map; lia). lia. }
  split.
  { rewrite lookup_py_slice by lia.
    replace (length ks - P - 1 + (P - 1)) with (length ks - 2) by lia. exact Hc. }
  change (-2)%Z with (- Z.of_nat 2)%Z.
  rewrite py_index_neg by lia. rewrite Hl.
  replace (length ks - P + 1 - 2) with (length ks - P - 1) by lia.
  rewrite Hp. reflexivity.
Qed.
End Alinhamento.

Section Independencia.
Context {F : Type} {num : Numero F}.

Lemma py_slice_app_l {A} (l t : list A) i j :
  j <= length l -> py_slice i j (l ++ t) = py_slice i j l.
Proof.
  intros H. unfold py_slice.
  destruct (Nat.le_gt_cases i (length l)) as [Hi|Hi].
  - rewrite drop_app_le by exact Hi.
    rewrite take_app_le by (rewrite length_drop; lia). reflexivity.
  - replace (j - i) with 0 by lia. reflexivity.
Qed.

Lemma mean_amplitude_ignora_ultimo (pre : list (Candle F)) x y :
  3 <= length pre ->
  mean_amplitude (pre ++ [x]) = mean_amplitude (pre ++ [y]).
Proof.
  intros H. unfold mean_amplitude, rmap, amplitude.
  change (-4)%Z with (- Z.of_nat 4)%Z. change (-3)%Z with (- Z.of_nat 3)%Z.
  change (-2)%Z with (- Z.of_nat 2)%Z.
  rewrite !py_index_app_neg by lia. reflexivity.
Qed.

Lemma calcular_zero (ks : list (Candle F)) d :
  ks <> [] -> calcular ks 0 d = Raise ValueError.
Proof.
  intros H. unfold calcular. cbn. destruct ks; [contradiction|reflexivity].
Qed.

(** The bands are computed from the whole 5m series, candle in progress
    included, but the entry detector reads none of what that candle
    contributes. *)
Lemma entrada_5m_ignora_vela_em_andamento (pre : list (Candle F)) x y P d :
  entrada_5m_da_serie (pre ++ [x]) P d = entrada_5m_da_serie (pre ++ [y]) P d.
Proof.
  unfold entrada_5m_da_serie.
  destruct P as [|P'].
  { rewrite !calcular_zero by (destruct pre; discriminate). reflexivity. }
  set (P := S P').
  assert (Hlx : length (pre ++ [x]) = length pre + 1) by (rewrite length_app; reflexivity).
  assert (Hly : length (pre ++ [y]) = length pre + 1) by (rewrite length_app; reflexivity).
  destruct (Nat.le_gt_cases P (length pre + 1)) as [HN|HN].
  2:{ unfold calcular. rewrite Hlx, Hly.
      replace (length pre + 1 <? P) with true by (symmetry; apply Nat.ltb_lt; lia).
      cbn [mbind result_bind rbind].
      rewrite !detectar_entrada_5m_curta by (right; reflexivity). reflexivity. }
  destruct (calcular_lookup (pre ++ [x]) P d) as (bx & Hbx & _); [lia | lia |].
  destruct (calcular_lookup (pre ++ [y]) P d) as (by' & Hby & _); [lia | lia |].
  rewrite Hbx, Hby. cbn [mbind result_bind rbind].
  destruct (Nat.le_gt_cases 14 (length pre)) as [H14|H14].
  2:{ rewrite !detectar_entrada_5m_curta by (left; lia). reflexivity. }
  destruct (py_index_neg_Ok pre 1) as (fechado & _ & Hf); [lia | lia |].
  assert (Hfx : py_index (pre ++ [x]) (-2) = Ok fechado).
  { change (-2)%Z with (- Z.of_nat 2)%Z. rewrite py_index_app_neg by lia. exact Hf. }
  assert (Hfy : py_index (pre ++ [y]) (-2) = Ok fechado).
  { change (-2)%Z with (- Z.of_nat 2)%Z. rewrite py_index_app_neg by lia. exact Hf. }
  rewrite (detectar_entrada_5m_eq (pre ++ [x]) bx fechado) by (lia || exact Hfx).
  rewrite (detectar_entrada_5m_eq (pre ++ [y]) by' fechado) by (lia || exact Hfy).
  rewrite (mean_amplitude_ignora_ultimo pre x y) by lia.
  destruct (Nat.eq_dec P (length pre + 1)) as [HeqP|HneP].
  - destruct (calcular_Some_length _ _ _ _ Hbx) as (_ & _ & Hx).
    destruct (calcular_Some_length _ _ _ _ Hby) as (_ & _ & Hy).
    change (-2)%Z with (- Z.of_nat 2)%Z.
    rewrite !py_index_neg_raise by lia. reflexivity.
  - destruct (percent_b_menos_dois _ _ _ _ Hbx) as (fx & Hfx' & _ & _ & Hpx); [lia|].
    destruct (percent_b_menos_dois _ _ _ _ Hby) as (fy & Hfy' & _ & _ & Hpy); [lia|].
    rewrite Hfx in Hfx'. inversion Hfx'; subst fx.
    rewrite Hfy in Hfy'. inversion Hfy'; subst fy.
    rewrite Hpx, Hpy, Hlx, Hly, !map_app.
    rewrite !py_slice_app_l by (rewrite length_map; lia). reflexivity.
Qed.
End Independencia.

(** X1: the answer of [confirmar_sinal] does not depend on the 5m candle in
    progress: two market answers with the same 1h series and 5m series
    that differ only in their last candle give the same result, signal,
    [None] or exception alike. *)
Theorem sinal_ignora_vela_5m_em_andamento :
  forall F (num : Numero F)
         (obter_klines obter_klines' : string -> string -> nat -> option (list (Candle F)))
         (pre : list (Candle F)) x y agora symbol,
  obter_klines symbol "1h" 50 = obter_klines' symbol "1h" 50 ->
  obter_klines symbol "5m" 50 = Some (pre ++ [x]) ->
  obter_klines' symbol "5m" 50 = Some (pre ++ [y]) ->
  confirmar_sinal obter_klines agora symbol
  = confirmar_sinal obter_klines' agora symbol.
Proof.
  intros F num api api' pre x y agora symbol H1 H5 H5'.
  unfold confirmar_sinal. rewrite <- H1, H5, H5'. clear H1 H5 H5'.
  destruct (api symbol "1h" 50) as [[|k1 t1]|]; try reflexivity.
  destruct (pre ++ [x]) as [|kx tx] eqn:Ex; [destruct pre; discriminate Ex|].
  destruct (pre ++ [y]) as [|ky ty] eqn:Ey; [destruct pre; discriminate Ey|].
  rewrite <- Ex, <- Ey. clear kx tx ky ty Ex Ey.
  pose proof (entrada_5m_ignora_vela_em_andamento pre x y 20 (of_Z 2)) as H.
  unfold entrada_5m_da_serie in H.
  destruct (Nat.le_gt_cases 20 (length pre + 1)) as [HN|HN].
  - destruct (calcular_lookup (pre ++ [x]) 20 (of_Z 2)) as (bx & Hx & _);
      [lia | rewrite length_app; exact HN |].
    destruct (calcular_lookup (pre ++ [y]) 20 (of_Z 2)) as (by' & Hy & _);
      [lia | rewrite length_app; exact HN |].
    rewrite Hx, Hy in H |- *. cbn [mbind result_bind rbind] in H |- *.
    destruct (detectar_contexto_1h (k1 :: t1)) as [[c|]|e]; try reflexivity.
    cbn [mbind result_bind rbind]. rewrite H. reflexivity.
  - unfold calcular. rewrite !length_app. cbn [length].
    replace (length pre + 1 <? 20) with true by (symmetry; apply Nat.ltb_lt; lia).
    reflexivity.
Qed.

Lemma sinal_ignora_vela_5m_em_andamento_witness :
  confirmar_sinal (binance_fixo serie_resistencia
                     (velas_5m_vinte ++ [vela 20 120 121 119 120 1]))
    "31/01 10:00:00" "BTCUSDT"
  = confirmar_sinal (binance_fixo serie_resistencia
                       (velas_5m_vinte ++ [vela 20 120 500 100 400 9]))
      "31/01 10:00:00" "BTCUSDT".
Proof.
  apply (sinal_ignora_vela_5m_em_andamento float _ _ _ velas_5m_vinte
           (vela 20 120 121 119 120 1) (vela 20 120 500 100 400 9));
    reflexivity.
Defined.

(** ** What percentB and the bands mean, over the reals *)



(** ** More on the 1h context detector *)

Section ContextoLocal.
Context {F : Type} {num : Numero F}.

(** [(pre + suf)[-k:] = suf] for [k = len(suf)], and a negative index
    within [suf] does not see [pre]. *)
Lemma py_slice_last_app {A} (pre suf : list A) :
  py_slice_last (length suf) (pre ++ suf) = suf.
Proof.
  unfold py_slice_last. rewrite length_app.
  replace (length pre + length suf - length suf) with (length pre) by lia.
  apply drop_app_length.
Qed.

Lemma py_index_neg_app_r {A} (pre suf : list A) (k : nat) :
  1 <= k -> k <= length suf ->
  py_index (pre ++ suf) (- Z.of_nat k) = py_index suf (- Z.of_nat k).
Proof.
  intros Hk Hl. rewrite !py_index_neg by (rewrite ?length_app; lia).
  rewrite length_app, lookup_app_r by lia.
  replace (length pre + length suf - k - length pre) with (length suf - k) by lia.
  reflexivity.
Qed.

(** The context detector reads the volumes of the last twenty candles and
    the prices of the last two, and never raises. *)
Lemma detectar_contexto_1h_total (ks : list (Candle F)) :
  exists r, detectar_contexto_1h ks = Ok r.
Proof.
  destruct (Nat.le_gt_cases 25 (length ks)) as [H|H].
  - destruct (ultimas_duas ks) as (prev & last & Hp & Hl); [lia|].
    rewrite (detectar_contexto_1h_eq ks prev last H Hp Hl). eexists. reflexivity.
  - rewrite detectar_contexto_1h_curta by lia. eexists. reflexivity.
Qed.
End ContextoLocal.

(** X3: on 25 candles or more the 1h context detector is a function of the
    last twenty candles alone: two series with the same last twenty
    candles get the same answer, whatever came before. *)
Theorem contexto_1h_so_ultimas_vinte :
  forall F (num : Numero F) (pre pre' suf : list (Candle F)),
  length suf = 20 -> 5 <= length pre -> 5 <= length pre' ->
  detectar_contexto_1h (pre ++ suf) = detectar_contexto_1h (pre' ++ suf).
Proof.
  intros F num pre pre' suf Hs Hp Hp'.
  destruct (ultimas_duas suf) as (prev & last & Hprev & Hlast); [lia|].
  assert (Hi : forall p : list (Candle F),
             py_index (p ++ suf) (-2) = Ok prev /\ py_index (p ++ suf) (-1) = Ok last).
  { intros p. change (-2)%Z with (- Z.of_nat 2)%Z. change (-1)%Z with (- Z.of_nat 1)%Z.
    rewrite !py_index_neg_app_r by lia. split; assumption. }
  rewrite (detectar_contexto_1h_eq (pre ++ suf) prev last)
    by (rewrite ?length_app; try lia; apply Hi).
  rewrite (detectar_contexto_1h_eq (pre' ++ suf) prev last)
    by (rewrite ?length_app; try lia; apply Hi).
  unfold resistance_test, support_test, volume_strength.
  rewrite <- Hs, !py_slice_last_app. reflexivity.
Qed.

Lemma contexto_1h_so_ultimas_vinte_witness :
  detectar_contexto_1h
    (firstn 5 serie_resistencia ++ skipn 5 serie_resistencia)
  = detectar_contexto_1h
      (map (fun i => vela (Z.of_nat i) 5 7 3 5 1000) (seq 0 9)
       ++ skipn 5 serie_resistencia).
Proof.
  apply (contexto_1h_so_ultimas_vinte float _); vm_compute; (reflexivity || lia).
Defined.

(** ** [confirmar_sinal] as a whole *)

Section SinalCompleto.
Context {F : Type} {num : Numero F}.

(** A zone comes from 25 candles or more, from the last candle, and from a
    volume strength above 1.2. *)
Lemma detectar_contexto_1h_Some (ks : list (Candle F)) c :
  detectar_contexto_1h ks = Ok (Some c) ->
  25 <= length ks /\
  exists last, py_index ks (-1) = Ok last /\
    cz_preco_zona c = match cz_tipo c with
                      | resistencia => k_high last
                      | suporte => k_low last
                      end /\
    cz_preco_atual c = k_close last /\
    cz_timestamp c = k_open_time last /\
    cz_forca_volume c = volume_strength ks last /\
    (dec 12 10 <. cz_forca_volume c) = true.
Proof.
  intros H.
  destruct (Nat.le_gt_cases 25 (length ks)) as [Hlen|Hlen].
  2:{ rewrite detectar_contexto_1h_curta in H by lia. discriminate H. }
  split; [exact Hlen|].
  destruct (ultimas_duas ks) as (prev & last & Hp & Hl); [lia|].
  rewrite (detectar_contexto_1h_eq ks prev last Hlen Hp Hl) in H.
  exists last. split; [exact Hl|].
  unfold resistance_test, support_test in H.
  destruct (k_high prev ⊗ dec 1005 1000 <. k_high last);
    destruct (k_close last <. k_high last ⊗ dec 995 1000);
    destruct (k_low last <. k_low prev ⊗ dec 995 1000);
    destruct (k_low last ⊗ dec 1005 1000 <. k_close last);
    destruct (dec 12 10 <. volume_strength ks last) eqn:Hv;
    cbn [andb] in H; inversion H; subst c; cbn; auto.
Qed.

(** A touch comes from 15 candles or more and from the candle at -2. *)
Lemma detectar_entrada_5m_Some (ks : list (Candle F)) bb e :
  detectar_entrada_5m ks (Some bb) = Ok (Some e) ->
  15 <= length ks /\ 2 <= length (percent_b bb) /\
  exists fechado, py_index ks (-2) = Ok fechado /\
    ee_preco_atual e = k_close fechado /\
    ee_timestamp e = k_open_time fechado /\
    (ee_amplitude_media e <. dec 3 1000) = true.
Proof.
  intros H.
  destruct (Nat.le_gt_cases 15 (length ks)) as [Hlen|Hlen].
  2:{ rewrite detectar_entrada_5m_curta in H by (left; lia). discriminate H. }
  split; [exact Hlen|].
  destruct (py_index_neg_Ok ks 2) as (fechado & _ & Hf); [lia | lia |].
  change (- Z.of_nat 2)%Z with (-2)%Z in Hf.
  rewrite (detectar_entrada_5m_eq ks bb fechado Hlen Hf) in H.
  split.
  { destruct (Nat.le_gt_cases 2 (length (percent_b bb))) as [H2|H2]; [exact H2|].
    change (-2)%Z with (- Z.of_nat 2)%Z in H.
    rewrite py_index_neg_raise in H by lia. discriminate H. }
  exists fechado. split; [exact Hf|].
  destruct (py_index (percent_b bb) (-2)) as [pb|]; [|discriminate H].
  destruct (mean_amplitude ks) as [amp|]; [|discriminate H].
  cbn [mbind result_bind rbind] in H.
  destruct (dec 95 100 <. pb), (pb <. dec 5 100), (amp <. dec 3 1000) eqn:Ha;
    cbn [andb] in H; inversion H; subst e; cbn; auto.
Qed.

(** With more candles than the period and open prices that are not zero
    the entry detector returns. *)
Lemma detectar_entrada_5m_Ok (ks : list (Candle F)) P d bb :
  calcular ks P d = Ok (Some bb) -> P < length ks ->
  (forall i k, In i [-4; -3; -2]%Z -> py_index ks i = Ok k ->
               (k_open k ==. of_Z 0) = false) ->
  exists r, detectar_entrada_5m ks (Some bb) = Ok r.
Proof.
  intros Hb Hlt Hopen.
  destruct (calcular_Some_length ks P d bb Hb) as (HP & HN & Hl).
  destruct (Nat.le_gt_cases 15 (length ks)) as [Hlen|Hlen].
  2:{ rewrite detectar_entrada_5m_curta by (left; lia). eexists. reflexivity. }
  destruct (py_index_neg_Ok ks 2) as (fechado & _ & Hf); [lia | lia |].
  change (- Z.of_nat 2)%Z with (-2)%Z in Hf.
  rewrite (detectar_entrada_5m_eq ks bb fechado Hlen Hf).
  destruct (py_index_neg_Ok (percent_b bb) 2) as (pb & _ & Hpb); [lia | lia |].
  change (- Z.of_nat 2)%Z with (-2)%Z in Hpb. rewrite Hpb.
  destruct (rmap_amplitude_Ok ks) as (amps & Ha); [lia | exact Hopen |].
  unfold mean_amplitude. rewrite Ha. cbn [mbind result_bind rbind].
  eexists. reflexivity.
Qed.
End SinalCompleto.

(** X4: [confirmar_sinal] returns, without an exception, whenever the 5m
    answer does not have exactly twenty candles, the open prices of its
    candles at -4, -3, -2 are not zero, and the high and the low of the
    last 1h candle are not zero; unavailable or empty market data gives
    [None]. *)
Theorem confirmar_sinal_sem_excecao :
  forall F (num : Numero F)
         (obter_klines : string -> string -> nat -> option (list (Candle F)))
         agora symbol,
  (forall k5, obter_klines symbol "5m" 50 = Some k5 ->
     length k5 <> 20 /\
     forall i k, In i [-4; -3; -2]%Z -> py_index k5 i = Ok k ->
                 (k_open k ==. of_Z 0) = false) ->
  (forall k1 last, obter_klines symbol "1h" 50 = Some k1 ->
     py_index k1 (-1) = Ok last ->
     (k_high last ==. of_Z 0) = false /\ (k_low last ==. of_Z 0) = false) ->
  (exists r, confirmar_sinal obter_klines agora symbol = Ok r) /\
  ((obter_klines symbol "1h" 50 = None \/ obter_klines symbol "1h" 50 = Some []
    \/ obter_klines symbol "5m" 50 = None \/ obter_klines symbol "5m" 50 = Some []) ->
   confirmar_sinal obter_klines agora symbol = Ok None).
Proof.
  intros F num api agora symbol H5 H1. split.
  - unfold confirmar_sinal.
    destruct (api symbol "1h" 50) as [[|k1 t1]|] eqn:E1; try (eexists; reflexivity).
    destruct (api symbol "5m" 50) as [[|k5 t5]|] eqn:E5; try (eexists; reflexivity).
    destruct (H5 _ eq_refl) as (Hne & Hopen).
    destruct (Nat.le_gt_cases 20 (length (k5 :: t5))) as [HN|HN].
    2:{ unfold calcular.
        replace (length (k5 :: t5) <? 20) with true by (symmetry; apply Nat.ltb_lt; lia).
        eexists. reflexivity. }
    destruct (calcular_lookup (k5 :: t5) 20 (of_Z 2)) as (bb & Hb & _); [lia | lia |].
    rewrite Hb. cbn [mbind result_bind rbind].
    destruct (detectar_contexto_1h (k1 :: t1)) as [[c|]|e] eqn:Ec.
    + cbn [mbind result_bind rbind].
      destruct (detectar_entrada_5m_Ok (k5 :: t5) 20 (of_Z 2) bb Hb) as (r & Hr);
        [lia | exact Hopen |].
      rewrite Hr. cbn [mbind result_bind rbind].
      destruct r as [en|]; [|eexists; reflexivity].
      cbn [confirmar_classificacoes].
      destruct (detectar_contexto_1h_Some _ _ Ec) as (_ & last & Hl & Hz & _).
      destruct (H1 _ last eq_refl Hl) as (Hh & Hlo).
      unfold confirmar_alinhamento, py_truediv. rewrite Hz.
      destruct (cz_tipo c), (ee_tipo en); try (eexists; reflexivity).
      * rewrite Hh. eexists. reflexivity.
      * rewrite Hlo. eexists. reflexivity.
    + eexists. reflexivity.
    + destruct (detectar_contexto_1h_total (k1 :: t1)) as (r & Hr).
      rewrite Hr in Ec. discriminate Ec.
  - intros [E|[E|[E|E]]]; unfold confirmar_sinal; rewrite E; try reflexivity;
      destruct (api symbol "1h" 50) as [[|? ?]|]; reflexivity.
Qed.

Lemma confirmar_sinal_sem_excecao_witness :
  exists r, confirmar_sinal (binance_fixo serie_resistencia velas_5m_sinal)
              "31/01 10:00:00" "BTCUSDT" = Ok r.
Proof.
  apply (confirmar_sinal_sem_excecao float _).
  - intros k5 H. inversion H; subst k5. clear H. split; [vm_compute; lia|].
    intros i k [<-|[<-|[<-|[]]]] Hk; vm_compute in Hk; inversion Hk; subst k;
      vm_compute; reflexivity.
  - intros k1 last H Hl. inversion H; subst k1. clear H.
    vm_compute in Hl. inversion Hl; subst last. split; vm_compute; reflexivity.
Defined.

Section SinalCampos.
Context {F : Type} {num : Numero F}.

(** The fields of a signal, read off the two classifications. *)
Lemma confirmar_alinhamento_campos par agora (c : ContextZone F) (e : EntryEvent F) s :
  confirmar_alinhamento par agora c e = Ok (Some s) ->
  symbol s = par /\ timestamp s = agora /\
  preco_entrada s = ee_preco_atual e /\ preco_zona s = cz_preco_zona c /\
  forca_volume s = cz_forca_volume c /\
  confianca s = confianca_de (cz_forca_volume c) /\
  (cz_preco_zona c ==. of_Z 0) = false /\
  acao s = match cz_tipo c with resistencia => VENDA | suporte => COMPRA end.
Proof.
  unfold confirmar_alinhamento, py_truediv.
  destruct (cz_tipo c), (ee_tipo e); try discriminate;
    destruct (cz_preco_zona c ==. of_Z 0); try discriminate;
    cbn [mbind result_bind rbind]; intros H; inversion H; subst s; cbn;
    repeat split.
Qed.
End SinalCampos.

(** X5: every signal [confirmar_sinal] returns carries the symbol asked
    for and the time text of the call, a volume strength above 1.2 (the
    confidence is read from it), the close of the 5m candle at -2 as entry
    price and, as zone price, the high (SELL) or the low (BUY) of the last
    1h candle, which is not zero; and it needs at least 25 candles at 1h
    and 21 at 5m. *)
Theorem sinal_confirmado_campos :
  forall F (num : Numero F)
         (obter_klines : string -> string -> nat -> option (list (Candle F)))
         agora par (s : Signal F),
  confirmar_sinal obter_klines agora par = Ok (Some s) ->
  symbol s = par /\ timestamp s = agora /\
  (dec 12 10 <. forca_volume s) = true /\
  confianca s = (if dec 15 10 <. forca_volume s then ALTA else MEDIA) /\
  (preco_zona s ==. of_Z 0) = false /\
  exists klines_1h klines_5m last fechado,
    obter_klines par "1h" 50 = Some klines_1h /\
    obter_klines par "5m" 50 = Some klines_5m /\
    25 <= length klines_1h /\ 21 <= length klines_5m /\
    py_index klines_1h (-1) = Ok last /\
    py_index klines_5m (-2) = Ok fechado /\
    preco_entrada s = k_close fechado /\
    preco_zona s = match acao s with
                   | VENDA => k_high last
                   | COMPRA => k_low last
                   end /\
    forca_volume s = volume_strength klines_1h last.
Proof.
  intros F num api agora par s H.
  destruct (confirmar_sinal_Some _ _ _ _ H)
    as (k1 & k5 & bb & c & e & H1 & H5 & Hb & Hc & He & Ha).
  destruct (confirmar_alinhamento_campos _ _ _ _ _ Ha)
    as (Hsy & Hts & Hpe & Hpz & Hfv & Hcf & Hnz & Hac).
  destruct (detectar_contexto_1h_Some _ _ Hc)
    as (Hl1 & last & Hlast & Hzona & _ & _ & Hvs & Hv12).
  destruct (detectar_entrada_5m_Some _ _ _ He)
    as (Hl5 & Hpb & fechado & Hf & Hcl & _ & _).
  destruct (calcular_Some_length _ _ _ _ Hb) as (_ & _ & Hlen).
  split; [exact Hsy|]. split; [exact Hts|].
  split; [rewrite Hfv; exact Hv12|].
  split; [rewrite Hcf, Hfv; reflexivity|].
  split; [rewrite Hpz; exact Hnz|].
  exists k1, k5, last, fechado.
  repeat (split; [first [assumption | lia | congruence]|]).
  split.
  - rewrite Hpz, Hzona, Hac. destruct (cz_tipo c); reflexivity.
  - congruence.
Qed.

Lemma sinal_confirmado_campos_witness :
  exists s, confirmar_sinal (binance_fixo serie_resistencia velas_5m_sinal)
              "31/01 10:00:00" "BTCUSDT" = Ok (Some s) /\
    symbol s = "BTCUSDT" /\ (dec 12 10 <. forca_volume s) = true.
Proof.
  eexists. split; [vm_compute; reflexivity|].
  match goal with |- symbol ?s = _ /\ _ =>
    destruct (sinal_confirmado_campos float _
                (binance_fixo serie_resistencia velas_5m_sinal)
                "31/01 10:00:00" "BTCUSDT" s) as (H1 & _ & H3 & _)
  end; [vm_compute; reflexivity|].
  split; assumption.
Defined.

(** ** The BUY branch of the confirmation *)

Section FloatSub.
Local Open Scope float_scope.

(** [abs(x - y) = abs(y - x)] on binary64. *)
Lemma abs_sub_comm x y : abs (x - y) = abs (y - x).
Proof.
  apply Prim2SF_inj. rewrite !abs_spec, !sub_spec.
  destruct (Prim2SF x) as [sx|sx| |sx mx ex], (Prim2SF y) as [sy|sy| |sy my ey];
    try (destruct sx, sy; reflexivity); try (destruct sx; reflexivity);
    try (destruct sy; reflexivity); try reflexivity.
  unfold SF64sub, SFsub. rewrite (Z.min_comm ey ex).
  set (a := cond_Zopp sx _). set (b := cond_Zopp sy _).
  replace (b - a)%Z with (- (a - b))%Z by lia.
  destruct (a - b)%Z as [|p|p]; [reflexivity| |].
  - change (- Z.pos p)%Z with (Z.neg p). cbn [binary_normalize]. unfold binary_round.
    destruct (shl_align p _ _) as [mz ez].
    rewrite !SFabs_binary_round_aux. reflexivity.
  - change (- Z.neg p)%Z with (Z.pos p). cbn [binary_normalize]. unfold binary_round.
    destruct (shl_align p _ _) as [mz ez].
    rewrite !SFabs_binary_round_aux. reflexivity.
Qed.
End FloatSub.

(** X6: on a support zone and a lower touch, with a zone price that is not
    zero, the confirmation returns a BUY signal with the entry and zone
    prices of the pair, risk [|(entry - zone) / zone| * 100] and the same
    confidence rule as SELL; on floats, for a positive zone price, the
    risk is [|zone - entry| / zone * 100], the number a SELL signal gets
    for the same two prices. *)
Theorem confirmacao_compra :
  (forall F (num : Numero F) par agora (c : ContextZone F) (e : EntryEvent F),
     cz_tipo c = suporte -> ee_tipo e = lateralizacao_inferior ->
     (cz_preco_zona c ==. of_Z 0) = false ->
     exists s, confirmar_alinhamento par agora c e = Ok (Some s) /\
       acao s = COMPRA /\
       preco_entrada s = ee_preco_atual e /\ preco_zona s = cz_preco_zona c /\
       risco_percentual s =
         nabs ((ee_preco_atual e ⊖ cz_preco_zona c) ⊘ cz_preco_zona c) ⊗ of_Z 100 /\
       confianca s = if dec 15 10 <. cz_forca_volume c then ALTA else MEDIA) /\
  (forall par agora (c : ContextZone float) (e : EntryEvent float),
     cz_tipo c = suporte -> ee_tipo e = lateralizacao_inferior ->
     (0 <? cz_preco_zona c)%float = true ->
     exists s, confirmar_alinhamento par agora c e = Ok (Some s) /\
       acao s = COMPRA /\
       risco_percentual s =
         (abs (cz_preco_zona c - ee_preco_atual e) / cz_preco_zona c * 100)%float).
Proof.
  assert (Hgen : forall F (num : Numero F) par agora (c : ContextZone F) (e : EntryEvent F),
     cz_tipo c = suporte -> ee_tipo e = lateralizacao_inferior ->
     (cz_preco_zona c ==. of_Z 0) = false ->
     confirmar_alinhamento par agora c e =
     Ok (Some {| acao := COMPRA; symbol := par;
                 preco_entrada := ee_preco_atual e;
                 preco_zona := cz_preco_zona c;
                 risco_percentual :=
                   nabs ((ee_preco_atual e ⊖ cz_preco_zona c) ⊘ cz_preco_zona c)
                   ⊗ of_Z 100;
                 forca_volume := cz_forca_volume c;
                 timestamp := agora;
                 timeframe_contexto := "1h"; timeframe_entrada := "5m";
                 confianca := if dec 15 10 <. cz_forca_volume c then ALTA else MEDIA |})).
  { intros F num par agora c e Hc He Hz.
    unfold confirmar_alinhamento, py_truediv, confianca_de.
    rewrite Hc, He, Hz. reflexivity. }
  split.
  - intros F num par agora c e Hc He Hz.
    rewrite (Hgen F num par agora c e Hc He Hz). eexists. repeat split.
  - intros par agora c e Hc He Hz.
    assert (Hz' : (cz_preco_zona c ==. of_Z 0) = false) by exact (pos_neq_zero _ Hz).
    rewrite (Hgen float _ par agora c e Hc He Hz').
    eexists. split; [reflexivity|]. split; [reflexivity|].
    cbn. rewrite (abs_div_pos _ _ Hz), abs_sub_comm. reflexivity.
Qed.

Lemma confirmacao_compra_witness :
  exists s, confirmar_alinhamento "ETHUSDT" "31/01 10:00:00" suporte_100 toque_baixo_102
            = Ok (Some s) /\
    acao s = COMPRA /\ risco_percentual s = 2%float.
Proof.
  destruct confirmacao_compra as (_ & H).
  destruct (H "ETHUSDT" "31/01 10:00:00" suporte_100 toque_baixo_102)
    as (s & Hs & Ha & Hr); try reflexivity.
  exists s. split; [exact Hs|]. split; [exact Ha|].
  rewrite Hr. vm_compute. reflexivity.
Defined.

(** ** More on the alert gate *)

Section Auditoria.
Context {F : Type}.
Implicit Types (amb : Ambiente) (sinal : Signal F) (self : TelegramAlerta F).

Lemma auditoria_inv_enviar amb sinal self :
  auditoria_inv self -> auditoria_inv (snd (enviar_sinal amb sinal self)).
Proof.
  intros (Hk & Hh & Hl).
  destruct (decide (chave_unica sinal ∈ alertas_enviados self)) as [Hin|Hin].
  { rewrite enviar_sinal_duplicado by exact Hin. repeat split; assumption || apply Hk. }
  destruct (entregue amb) eqn:He.
  2:{ rewrite enviar_sinal_falha by exact He. repeat split; assumption || apply Hk. }
  destruct (enviar_sinal_entregue amb sinal self Hin He) as (n & _ & ->).
  assert (Hk' : forall k, k ∈ {[chave_unica sinal]} ∪ alertas_enviados self <->
                  exists m, m ∈ mensagens self ++ [(n, sinal)] /\ chave_unica (snd m) = k).
  { intros k. rewrite elem_of_union, elem_of_singleton, Hk. split.
    - intros [->|(m & Hm & Hc)].
      + exists (n, sinal). split; [|reflexivity].
        apply elem_of_app. right. apply list_elem_of_singleton. reflexivity.
      + exists m. split; [|exact Hc]. apply elem_of_app. left. exact Hm.
    - intros (m & Hm & Hc). apply elem_of_app in Hm as [Hm|Hm].
      + right. exists m. auto.
      + apply list_elem_of_singleton in Hm. subst m. left. symmetry. exact Hc. }
  assert (Hh' : forall h, h ∈ historico_sinais self ->
                  exists n', (n', snd h) ∈ mensagens self ++ [(n, sinal)]).
  { intros h Hhin. destruct (Hh h Hhin) as (n' & Hn').
    exists n'. apply elem_of_app. left. exact Hn'. }
  destruct (escrita amb) as [[]|e]; cbn [snd]; split; try exact Hk'; split;
    cbn [historico_sinais mensagens]; rewrite ?length_app; cbn [length]; try lia;
    try exact Hh'.
  intros h Hhin. apply elem_of_app in Hhin as [Hhin|Hhin]; [exact (Hh' h Hhin)|].
  apply list_elem_of_singleton in Hhin. subst h. exists n.
  apply elem_of_app. right. apply list_elem_of_singleton. reflexivity.
Qed.

Lemma auditoria_inv_novo : auditoria_inv (F:=F) novo_alerta.
Proof.
  split; [|split]; cbn.
  - intros k. split.
    + intros H. exfalso. exact (not_elem_of_empty _ H).
    + intros (m & Hm & _). inversion Hm.
  - intros h Hh. inversion Hh.
  - lia.
Qed.
End Auditoria.

(** X7: in every run of a process, whatever the calls and their outcomes,
    the recorded keys are exactly the keys of the messages delivered to
    the chat, every signal written to the audit file was delivered, and
    the audit file never has more lines than the chat has messages. *)
Theorem auditoria_do_processo :
  forall F (chamadas : list (Ambiente * Signal F)),
  auditoria_inv (enviar_todos chamadas novo_alerta).
Proof.
  intros F chamadas.
  assert (H : forall (self : TelegramAlerta F),
            auditoria_inv self -> auditoria_inv (enviar_todos chamadas self)).
  { induction chamadas as [|[amb sinal] resto IH]; intros self Hs; cbn.
    - exact Hs.
    - apply IH, auditoria_inv_enviar, Hs. }
  apply H, auditoria_inv_novo.
Qed.

(** X8: what the answer of [enviar_sinal] says.  It is [True] exactly when
    the key is new, the message is delivered and the audit line written;
    the message reaches the chat exactly when the key is new and the
    delivery works, so that a failed audit write answers [False] for a
    message that was sent, records its key and has every later signal of
    that key suppressed. *)
Theorem resposta_de_enviar_sinal :
  forall F (amb : Ambiente) (sinal : Signal F) (self : TelegramAlerta F),
  (fst (enviar_sinal amb sinal self) = true <->
   (chave_unica sinal ∉ alertas_enviados self) /\ entregue amb = true /\
   escrita amb = Ok tt) /\
  (length (mensagens (snd (enviar_sinal amb sinal self)))
   = S (length (mensagens self)) <->
   (chave_unica sinal ∉ alertas_enviados self) /\ entregue amb = true) /\
  ((chave_unica sinal ∉ alertas_enviados self) -> entregue amb = true ->
   (exists e, escrita amb = Raise e) ->
   fst (enviar_sinal amb sinal self) = false /\
   (exists n, mensagens (snd (enviar_sinal amb sinal self))
              = mensagens self ++ [(n, sinal)]) /\
   historico_sinais (snd (enviar_sinal amb sinal self)) = historico_sinais self /\
   forall amb' sinal', chave_unica sinal' = chave_unica sinal ->
     enviar_sinal amb' sinal' (snd (enviar_sinal amb sinal self))
     = (false, snd (enviar_sinal amb sinal self))).
Proof.
  intros F amb sinal self.
  destruct (decide (chave_unica sinal ∈ alertas_enviados self)) as [Hin|Hin].
  { rewrite enviar_sinal_duplicado by exact Hin. cbn [fst snd].
    split; [|split].
    - split; [discriminate|]. intros (H & _). contradiction.
    - split; [lia|]. intros (H & _). contradiction.
    - intros H. contradiction. }
  destruct (entregue amb) eqn:He.
  2:{ rewrite enviar_sinal_falha by exact He. cbn [fst snd].
      split; [|split].
      - split; [discriminate|]. intros (_ & H & _). discriminate H.
      - split; [lia|]. intros (_ & H). discriminate H.
      - intros _ H. discriminate H. }
  destruct (enviar_sinal_entregue amb sinal self Hin He) as (n & _ & Hs).
  rewrite Hs. destruct (escrita amb) as [[]|e] eqn:Hw; cbn [fst snd mensagens historico_sinais].
  - split; [|split].
    + split; auto.
    + rewrite length_app. cbn. split; [auto|lia].
    + intros _ _ (e & He'). discriminate He'.
  - split; [|split].
    + split; [discriminate|]. intros (_ & _ & H). discriminate H.
    + rewrite length_app. cbn. split; [auto|lia].
    + intros _ _ _. split; [reflexivity|]. split; [eexists; reflexivity|].
      split; [reflexivity|].
      intros amb' sinal' Hc. apply enviar_sinal_duplicado. cbn. rewrite Hc. set_solver.
Qed.

Lemma resposta_de_enviar_sinal_witness :
  let r := enviar_sinal (ambiente_disco_cheio "2026-01-31T10:00:00")
             (venda_btc "31/01 10:00:00") novo_alerta in
  fst r = false /\
  (exists n, mensagens (snd r) = [] ++ [(n, venda_btc "31/01 10:00:00")]) /\
  historico_sinais (snd r) = [] /\
  enviar_sinal (ambiente_bom "2026-01-31T15:00:00") (venda_btc "31/01 15:00:00") (snd r)
  = (false, snd r).
Proof.
  intros r.
  destruct (resposta_de_enviar_sinal float (ambiente_disco_cheio "2026-01-31T10:00:00")
              (venda_btc "31/01 10:00:00") novo_alerta) as (_ & _ & H).
  destruct H as (H1 & H2 & H3 & H4);
    [apply not_elem_of_empty|reflexivity|eexists; reflexivity|].
  split; [exact H1|]. split; [exact H2|]. split; [exact H3|].
  apply H4. reflexivity.
Defined.

(** ** The key of the alert gate *)

Section Chave.
Context {F : Type}.
Implicit Types (sinal : Signal F).

Lemma length_append (a b : string) :
  String.length (a ++ b)%string = String.length a + String.length b.
Proof.
  induction a as [|ch a IH]; [reflexivity|].
  change (S (String.length (a ++ b)%string) = S (String.length a + String.length b)).
  f_equal. exact IH.
Qed.

(** Two texts that end in tails of one length are equal part by part. *)
Lemma append_inj_tail (a a' b b' : string) :
  String.length b = String.length b' ->
  (a ++ b)%string = (a' ++ b')%string -> a = a' /\ b = b'.
Proof.
  intros Hl. revert a'. induction a as [|ch a IH]; intros [|ch' a'] H.
  - auto.
  - exfalso. change (b = String ch' (a' ++ b')%string) in H.
    apply (f_equal String.length) in H. simpl in H.
    rewrite (length_append a' b') in H. lia.
  - exfalso. change (String ch (a ++ b)%string = b') in H.
    apply (f_equal String.length) in H. simpl in H.
    rewrite (length_append a b) in H. lia.
  - change (String ch (a ++ b)%string = String ch' (a' ++ b')%string) in H.
    inversion H as [[Hc Ht]]. destruct (IH _ Ht) as [-> ->]. auto.
Qed.

Lemma length_substring_0 (n : nat) (s : string) :
  n <= String.length s -> String.length (substring 0 n s) = n.
Proof.
  revert s. induction n as [|n IH]; intros [|ch s] H; simpl in *;
    try reflexivity; try lia.
  rewrite IH by lia. reflexivity.
Qed.

Lemma append_assoc (a b c : string) : ((a ++ b) ++ c)%string = (a ++ (b ++ c))%string.
Proof.
  induction a as [|ch a IH]; [reflexivity|].
  change (String ch ((a ++ b) ++ c)%string = String ch (a ++ (b ++ c))%string).
  f_equal. exact IH.
Qed.

Lemma chave_unica_partes sinal :
  chave_unica sinal
  = ((symbol sinal ++ "_" ++ acao_str (acao sinal)) ++ "_" ++ data_do_sinal sinal)%string.
Proof.
  unfold chave_unica. rewrite !append_assoc. reflexivity.
Qed.

Lemma chave_unica_inj sinal1 sinal2 :
  5 <= String.length (timestamp sinal1) ->
  5 <= String.length (timestamp sinal2) ->
  chave_unica sinal1 = chave_unica sinal2 ->
  symbol sinal1 = symbol sinal2 /\ acao sinal1 = acao sinal2 /\
  data_do_sinal sinal1 = data_do_sinal sinal2.
Proof.
  intros H1 H2 Hk. rewrite !chave_unica_partes in Hk.
  apply append_inj_tail in Hk as [Hsa Hd].
  2:{ unfold data_do_sinal.
      change (S (String.length (substring 0 5 (timestamp sinal1)))
              = S (String.length (substring 0 5 (timestamp sinal2)))).
      rewrite !length_substring_0 by assumption. reflexivity. }
  inversion Hd as [Hd']. clear Hd.
  change (data_do_sinal sinal1 = data_do_sinal sinal2) in Hd'.
  cut (symbol sinal1 = symbol sinal2 /\ acao sinal1 = acao sinal2); [tauto|].
  destruct (acao sinal1), (acao sinal2); cbn [acao_str] in Hsa.
  - apply append_inj_tail in Hsa as [-> _]; auto.
  - exfalso.
    assert (Hsa' : ((symbol sinal1 ++ "_VEN") ++ "DA")%string
                   = ((symbol sinal2 ++ "_COMP") ++ "RA")%string)
      by (rewrite !append_assoc; exact Hsa).
    apply append_inj_tail in Hsa' as [_ Hsa']; [discriminate Hsa'|reflexivity].
  - exfalso.
    assert (Hsa' : ((symbol sinal1 ++ "_COMP") ++ "RA")%string
                   = ((symbol sinal2 ++ "_VEN") ++ "DA")%string)
      by (rewrite !append_assoc; exact Hsa).
    apply append_inj_tail in Hsa' as [_ Hsa']; [discriminate Hsa'|reflexivity].
  - apply append_inj_tail in Hsa as [-> _]; auto.
Qed.
End Chave.

(** X9: the key tells instrument, action and day apart.  For signals whose
    time text has at least the five characters of its day, as every text
    of [strftime('%d/%m %H:%M:%S')] has, two keys are equal exactly when
    the signals agree on instrument, action and day; so a delivered signal
    suppresses no signal of another instrument, action or day. *)
Theorem chave_unica_separa :
  forall F (sinal1 sinal2 : Signal F),
  5 <= String.length (timestamp sinal1) ->
  5 <= String.length (timestamp sinal2) ->
  (chave_unica sinal1 = chave_unica sinal2 <->
   symbol sinal1 = symbol sinal2 /\ acao sinal1 = acao sinal2 /\
   data_do_sinal sinal1 = data_do_sinal sinal2) /\
  forall amb1 amb2 (self : TelegramAlerta F),
    (chave_unica sinal2 ∉ alertas_enviados self) ->
    (symbol sinal1 <> symbol sinal2 \/ acao sinal1 <> acao sinal2 \/
     data_do_sinal sinal1 <> data_do_sinal sinal2) ->
    entregue amb2 = true ->
    exists n, mensagens (snd (enviar_sinal amb2 sinal2
                                (snd (enviar_sinal amb1 sinal1 self))))
              = mensagens (snd (enviar_sinal amb1 sinal1 self)) ++ [(n, sinal2)].
Proof.
  intros F sinal1 sinal2 H1 H2.
  assert (Hiff : chave_unica sinal1 = chave_unica sinal2 <->
                 symbol sinal1 = symbol sinal2 /\ acao sinal1 = acao sinal2 /\
                 data_do_sinal sinal1 = data_do_sinal sinal2).
  { split; [apply chave_unica_inj; assumption|].
    intros (Hs & Ha & Hd). unfold chave_unica. rewrite Hs, Ha, Hd. reflexivity. }
  split; [exact Hiff|].
  intros amb1 amb2 self Hnew Hdif He.
  assert (Hne : chave_unica sinal1 <> chave_unica sinal2) by (rewrite Hiff; tauto).
  assert (Hnew' : chave_unica sinal2 ∉ alertas_enviados (snd (enviar_sinal amb1 sinal1 self))).
  { destruct (decide (chave_unica sinal1 ∈ alertas_enviados self)) as [Hk|Hk].
    { rewrite enviar_sinal_duplicado by exact Hk. exact Hnew. }
    destruct (entregue amb1) eqn:He1.
    2:{ rewrite enviar_sinal_falha by exact He1. exact Hnew. }
    destruct (enviar_sinal_entregue amb1 sinal1 self Hk He1) as (n & _ & ->).
    destruct (escrita amb1); cbn; intros Hin;
      apply elem_of_union in Hin as [Hin|Hin];
      try (apply elem_of_singleton in Hin; congruence); exact (Hnew Hin). }
  destruct (enviar_sinal_entregue amb2 sinal2 _ Hnew' He) as (n & _ & ->).
  exists n. destruct (escrita amb2); reflexivity.
Qed.

Lemma chave_unica_separa_witness :
  chave_unica (venda_btc "31/01 10:00:00") = chave_unica (venda_btc "31/01 15:00:00") /\
  exists n,
    mensagens (snd (enviar_sinal (ambiente_bom "2026-02-01T10:00:00")
                      (venda_btc "01/02 10:00:00")
                      (snd (enviar_sinal (ambiente_bom "2026-01-31T10:00:00")
                              (venda_btc "31/01 10:00:00") novo_alerta))))
    = mensagens (snd (enviar_sinal (ambiente_bom "2026-01-31T10:00:00")
                        (venda_btc "31/01 10:00:00") novo_alerta))
      ++ [(n, venda_btc "01/02 10:00:00")].
Proof.
  split.
  - apply (chave_unica_separa float (venda_btc "31/01 10:00:00")
             (venda_btc "31/01 15:00:00")); [vm_compute; lia|vm_compute; lia|].
    repeat split.
  - apply (chave_unica_separa float (venda_btc "31/01 10:00:00")
             (venda_btc "01/02 10:00:00")); [vm_compute; lia|vm_compute; lia| | |].
    + apply not_elem_of_empty.
    + right. right. discriminate.
    + reflexivity.
Defined.

(** ** The monitoring loop *)

Section Bot.
Context {F : Type} {num : Numero F}.
Implicit Types (self bot : ReversaoBot F) (l : Leitura F).

(** What every signal of [confirmar_sinal] carries. *)
Lemma confirmar_sinal_marcas obter_klines agora par (s : Signal F) :
  confirmar_sinal obter_klines agora par = Ok (Some s) ->
  symbol s = par /\ timestamp s = agora /\
  (dec 12 10 <. forca_volume s) = true /\
  (preco_zona s ==. of_Z 0) = false.
Proof.
  intros H.
  destruct (confirmar_sinal_Some _ _ _ _ H)
    as (k1 & k5 & bb & c & e & _ & _ & _ & Hc & _ & Ha).
  destruct (confirmar_alinhamento_campos _ _ _ _ _ Ha)
    as (Hsy & Hts & _ & Hpz & Hfv & _ & Hnz & _).
  destruct (detectar_contexto_1h_Some _ _ Hc) as (_ & last & _ & _ & _ & _ & _ & Hv12).
  repeat split; [exact Hsy|exact Hts|rewrite Hfv; exact Hv12|rewrite Hpz; exact Hnz].
Qed.

(** The messages of the chat after one call: those before, and at most
    the signal of the call. *)
Lemma mensagens_enviar_sinal amb (sinal : Signal F) (a : TelegramAlerta F) m :
  m ∈ mensagens (snd (enviar_sinal amb sinal a)) ->
  m ∈ mensagens a \/ snd m = sinal.
Proof.
  destruct (decide (chave_unica sinal ∈ alertas_enviados a)) as [Hk|Hk].
  { rewrite enviar_sinal_duplicado by exact Hk. auto. }
  destruct (entregue amb) eqn:He.
  2:{ rewrite enviar_sinal_falha by exact He. auto. }
  destruct (enviar_sinal_entregue amb sinal a Hk He) as (n & _ & ->).
  destruct (escrita amb); cbn; intros Hm; apply elem_of_app in Hm as [Hm|Hm]; auto;
    apply list_elem_of_singleton in Hm; subst m; auto.
Qed.

Lemma bot_inv_analisar ciclo_inicio par l self :
  par ∈ PARES_MONITORADOS -> bot_inv self ->
  bot_inv (analisar_par ciclo_inicio par l self).
Proof.
  intros Hpar Hinv. pose proof Hinv as (Hg & Ha & Hm & Hu). unfold analisar_par.
  destruct (limitado _ _ _ _); [exact Hinv|].
  destruct (confirmar_sinal _ _ _) as [[s|]|e] eqn:Hc; [| |exact Hinv].
  - destruct (confirmar_sinal_marcas _ _ _ _ Hc) as (Hsy & _ & Hv & Hz).
    split; [|split; [|split]]; cbn [alerta ultima_verificacao].
    + apply gate_inv_enviar, Hg.
    + apply auditoria_inv_enviar, Ha.
    + intros m Hin. apply mensagens_enviar_sinal in Hin as [Hin|Hin]; [exact (Hm m Hin)|].
      rewrite Hin, Hsy. auto.
    + intros p Hp. destruct (decide (par = p)) as [<-|Hne]; [exact Hpar|].
      rewrite lookup_insert_ne in Hp by exact Hne. exact (Hu p Hp).
  - split; [|split; [|split]]; cbn [alerta ultima_verificacao]; try assumption.
    intros p Hp. destruct (decide (par = p)) as [<-|Hne]; [exact Hpar|].
    rewrite lookup_insert_ne in Hp by exact Hne. exact (Hu p Hp).
Qed.

Lemma bot_inv_ciclo ciclo_inicio leituras self :
  bot_inv self -> bot_inv (ciclo ciclo_inicio leituras self).
Proof.
  intros H. unfold ciclo, PARES_MONITORADOS. cbn [foldl].
  repeat apply bot_inv_analisar; try exact H; unfold PARES_MONITORADOS;
    repeat constructor.
Qed.

Lemma bot_inv_novo : bot_inv (F:=F) novo_bot.
Proof.
  split; [apply gate_inv_novo|]. split; [apply auditoria_inv_novo|]. split.
  - intros m Hm. inversion Hm.
  - intros p [x Hp]. cbn in Hp. rewrite lookup_empty in Hp. discriminate Hp.
Qed.

Lemma bot_inv_executar ciclos self :
  bot_inv self -> bot_inv (executar ciclos self).
Proof.
  revert self. induction ciclos as [|[t ls] resto IH]; intros self H; cbn.
  - exact H.
  - apply IH, bot_inv_ciclo, H.
Qed.
End Bot.

(** X10: whatever the market, the clock, Telegram and the disk do during
    any number of turns of the loop, every message the bot has delivered
    is for a monitored pair, carries a volume strength above 1.2 and a
    zone price that is not zero, no two delivered messages share
    instrument, action and day, the audit file holds only delivered
    signals, and only monitored pairs have a time of last check. *)
Theorem bot_so_alerta_sinais_confirmados :
  forall F (num : Numero F) (ciclos : list (Z * (string -> Leitura F))),
  let bot := executar ciclos novo_bot in
  (forall m, m ∈ mensagens (alerta bot) ->
     symbol (snd m) ∈ PARES_MONITORADOS /\
     (dec 12 10 <. forca_volume (snd m)) = true /\
     (preco_zona (snd m) ==. of_Z 0) = false) /\
  NoDup (map (fun m => chave_unica (snd m)) (mensagens (alerta bot))) /\
  (forall h, h ∈ historico_sinais (alerta bot) ->
     exists n, (n, snd h) ∈ mensagens (alerta bot)) /\
  (forall par, is_Some (ultima_verificacao bot !! par) -> par ∈ PARES_MONITORADOS).
Proof.
  intros F num ciclos bot.
  destruct (bot_inv_executar ciclos novo_bot bot_inv_novo)
    as ((Hnd & _) & (_ & Hh & _) & Hm & Hu).
  repeat split; try assumption; apply Hm; assumption.
Qed.

Section BotPorPar.
Context {F : Type} {num : Numero F}.
Implicit Types (self bot : ReversaoBot F) (l : Leitura F).

(** Handling one pair leaves the last check of every other pair alone. *)
Lemma ultima_analisar_outro T q l self p :
  q <> p ->
  ultima_verificacao (analisar_par T q l self) !! p = ultima_verificacao self !! p.
Proof.
  intros Hne. unfold analisar_par.
  destruct (limitado _ _ _ _); [reflexivity|].
  destruct (confirmar_sinal _ _ _) as [sinal|e]; [|reflexivity].
  cbn. apply lookup_insert_ne, Hne.
Qed.

(** ... and adds at most a message of its own pair. *)
Lemma mensagens_analisar T q l self m :
  m ∈ mensagens (alerta (analisar_par T q l self)) ->
  m ∈ mensagens (alerta self) \/ symbol (snd m) = q.
Proof.
  unfold analisar_par.
  destruct (limitado _ _ _ _); [auto|].
  destruct (confirmar_sinal _ _ _) as [[s|]|e] eqn:Hc; cbn; auto.
  intros Hm. apply mensagens_enviar_sinal in Hm as [Hm|Hm]; [auto|].
  right. rewrite Hm. apply (confirmar_sinal_marcas _ _ _ _ Hc).
Qed.

Lemma ultima_foldl_outros T (ls : string -> Leitura F) qs self p :
  p ∉ qs ->
  ultima_verificacao
    (foldl (fun bot q => analisar_par T q (ls q) bot) self qs) !! p
  = ultima_verificacao self !! p.
Proof.
  revert self. induction qs as [|q qs IH]; intros self Hp; cbn; [reflexivity|].
  apply not_elem_of_cons in Hp as [Hne Hp].
  rewrite IH by exact Hp. apply ultima_analisar_outro. congruence.
Qed.

Lemma mensagens_foldl_outros T (ls : string -> Leitura F) qs self p m :
  p ∉ qs ->
  m ∈ mensagens (alerta (foldl (fun bot q => analisar_par T q (ls q) bot) self qs)) ->
  m ∈ mensagens (alerta self) \/ symbol (snd m) <> p.
Proof.
  revert self. induction qs as [|q qs IH]; intros self Hp; cbn; [auto|].
  apply not_elem_of_cons in Hp as [Hne Hp]. intros Hm.
  destruct (IH _ Hp Hm) as [Hm'|Hm']; [|auto].
  apply mensagens_analisar in Hm' as [Hm'|Hm']; [auto|].
  right. congruence.
Qed.

(** What one turn does to the pair [p] standing between [qs1] and [qs2]. *)
Lemma ciclo_do_par T (ls : string -> Leitura F) qs1 qs2 self p :
  p ∉ qs1 -> p ∉ qs2 ->
  let depois := foldl (fun bot q => analisar_par T q (ls q) bot) self
                      (qs1 ++ p :: qs2) in
  (limitado T (relogio_teste (ls p)) (ultima_verificacao self) p = true ->
   ultima_verificacao depois !! p = ultima_verificacao self !! p /\
   forall m, m ∈ mensagens (alerta depois) ->
             m ∈ mensagens (alerta self) \/ symbol (snd m) <> p) /\
  (limitado T (relogio_teste (ls p)) (ultima_verificacao self) p = false ->
   ultima_verificacao depois !! p =
   match confirmar_sinal (mercado (ls p)) (relogio_texto (ls p)) p with
   | Ok _ => Some (relogio_registro (ls p))
   | Raise _ => ultima_verificacao self !! p
   end).
Proof.
  intros H1 H2 depois. subst depois. rewrite foldl_app. cbn [foldl].
  set (antes := foldl _ self qs1).
  assert (Hu : ultima_verificacao antes !! p = ultima_verificacao self !! p)
    by (apply ultima_foldl_outros, H1).
  assert (Hl : limitado T (relogio_teste (ls p)) (ultima_verificacao antes) p
               = limitado T (relogio_teste (ls p)) (ultima_verificacao self) p)
    by (unfold limitado; rewrite Hu; reflexivity).
  split; intros Hlim; rewrite <- Hl in Hlim.
  - assert (Hp : analisar_par T p (ls p) antes = antes)
      by (unfold analisar_par; rewrite Hlim; reflexivity).
    rewrite Hp. split.
    + rewrite ultima_foldl_outros by exact H2. exact Hu.
    + intros m Hm. apply (mensagens_foldl_outros _ _ _ _ p) in Hm as [Hm|Hm];
        [|auto|exact H2].
      apply (mensagens_foldl_outros _ _ _ _ p) in Hm; [exact Hm|exact H1].
  - rewrite ultima_foldl_outros by exact H2.
    unfold analisar_par. rewrite Hlim.
    destruct (confirmar_sinal _ _ _) as [sinal|e]; cbn.
    + apply lookup_insert_eq.
    + exact Hu.
Qed.
End BotPorPar.

(** X11: the rate limit of one turn of the loop, pair by pair.  A monitored
    pair that was never checked is analysed when the clock has not gone
    back more than 60 s since the turn began; a pair checked at [u] is
    analysed when the test comes 300 s or more after [u], and otherwise is
    left alone: its time stays and every message the turn delivers is for
    another pair.  An analysis that ends normally stores its time, with or
    without a signal; one that raises stores nothing. *)
Theorem limite_por_par :
  forall F (num : Numero F) (T : Z) (leituras : string -> Leitura F)
         (self : ReversaoBot F) (par : string),
  par ∈ PARES_MONITORADOS ->
  let l := leituras par in
  let depois := ciclo T leituras self in
  let analisado :=
    ultima_verificacao depois !! par =
    match confirmar_sinal (mercado l) (relogio_texto l) par with
    | Ok _ => Some (relogio_registro l)
    | Raise _ => ultima_verificacao self !! par
    end in
  (ultima_verificacao self !! par = None ->
   (T - segundos 60 <= relogio_teste l)%Z -> analisado) /\
  (forall u, ultima_verificacao self !! par = Some u ->
     ((segundos 300 <= relogio_teste l - u)%Z -> analisado) /\
     ((relogio_teste l - u < segundos 300)%Z ->
      ultima_verificacao depois !! par = Some u /\
      forall m, m ∈ mensagens (alerta depois) ->
                m ∈ mensagens (alerta self) \/ symbol (snd m) <> par)).
Proof.
  intros F num T leituras self par Hpar l depois analisado.
  assert (Hc : (limitado T (relogio_teste l) (ultima_verificacao self) par = true ->
                ultima_verificacao depois !! par = ultima_verificacao self !! par /\
                forall m, m ∈ mensagens (alerta depois) ->
                          m ∈ mensagens (alerta self) \/ symbol (snd m) <> par) /\
               (limitado T (relogio_teste l) (ultima_verificacao self) par = false ->
                analisado)).
  { subst l depois analisado. unfold ciclo, PARES_MONITORADOS in *.
    apply elem_of_cons in Hpar as [->|Hpar];
      [|apply elem_of_cons in Hpar as [->|Hpar];
        [|apply elem_of_cons in Hpar as [->|Hpar]; [|inversion Hpar]]].
    - apply (ciclo_do_par T leituras [] ["ETHUSDT"; "SOLUSDT"] self "BTCUSDT");
        intros H; repeat (apply elem_of_cons in H as [H|H]; [discriminate H|]);
        inversion H.
    - apply (ciclo_do_par T leituras ["BTCUSDT"] ["SOLUSDT"] self "ETHUSDT");
        intros H; repeat (apply elem_of_cons in H as [H|H]; [discriminate H|]);
        inversion H.
    - apply (ciclo_do_par T leituras ["BTCUSDT"; "ETHUSDT"] [] self "SOLUSDT");
        intros H; repeat (apply elem_of_cons in H as [H|H]; [discriminate H|]);
        inversion H. }
  destruct Hc as [Hsim Hnao]. clearbody l depois analisado. split.
  - intros Hn Ht. apply Hnao. unfold limitado. rewrite Hn. cbn [default from_option]; unfold Datatypes.id.
    apply Z.ltb_ge. unfold segundos, INTERVALO_VERIFICACAO in *. lia.
  - intros u Hu. split.
    + intros Ht. apply Hnao. unfold limitado. rewrite Hu. cbn [default from_option]; unfold Datatypes.id.
      apply Z.ltb_ge. unfold segundos, INTERVALO_VERIFICACAO in *. lia.
    + intros Ht. rewrite <- Hu. apply Hsim. unfold limitado. rewrite Hu. cbn [default from_option]; unfold Datatypes.id.
      apply Z.ltb_lt. unfold segundos, INTERVALO_VERIFICACAO in *. lia.
Qed.

Lemma limite_por_par_witness :
  "BTCUSDT" ∈ PARES_MONITORADOS /\
  ultima_verificacao
    (ciclo 0 (fun _ => leitura_de_venda (segundos 1) (segundos 2)) novo_bot)
    !! "BTCUSDT"
  = Some (segundos 2).
Proof.
  assert (Hp : "BTCUSDT" ∈ PARES_MONITORADOS) by (unfold PARES_MONITORADOS; constructor).
  split; [exact Hp|].
  destruct (limite_por_par float _ 0
              (fun _ => leitura_de_venda (segundos 1) (segundos 2))
              novo_bot "BTCUSDT" Hp) as [H _].
  cbv zeta in H. rewrite H.
  - vm_compute. reflexivity.
  - apply lookup_empty.
  - vm_compute. discriminate.
Defined.

(** A first turn on a market that shows the SELL setup for every pair
    delivers three alerts; a second turn five minutes later, on the same
    day, analyses the pairs again and delivers none. *)
Example dois_ciclos_de_venda :
  let bot1 := ciclo 0 (fun _ => leitura_de_venda (segundos 1) (segundos 2)) novo_bot in
  let bot2 := ciclo (segundos 303)
                (fun _ => leitura_de_venda (segundos 304) (segundos 305)) bot1 in
  map (fun m => symbol (snd m)) (mensagens (alerta bot1)) = PARES_MONITORADOS /\
  mensagens (alerta bot2) = mensagens (alerta bot1) /\
  ultima_verificacao bot2 !! "SOLUSDT" = Some (segundos 305).
Proof.
  vm_compute. repeat split.
Qed.

Section PorDia.
Context {F : Type} {num : Numero F}.

(** The keys a day can have on the monitored pairs. *)
Lemma chave_de_par_monitorado (s : Signal F) :
  symbol s ∈ PARES_MONITORADOS ->
  chave_unica s ∈
    map (fun pa => (fst pa ++ "_" ++ acao_str (snd pa) ++ "_" ++ data_do_sinal s)%string)
        (par ← PARES_MONITORADOS; [(par, VENDA); (par, COMPRA)]).
Proof.
  intros Hs. apply list_elem_of_fmap. exists (symbol s, acao s). split; [reflexivity|].
  unfold PARES_MONITORADOS in *. cbn.
  repeat (apply elem_of_cons in Hs as [->|Hs]; [destruct (acao s); set_solver|]).
  inversion Hs.
Qed.

Lemma NoDup_fmap_filter {A B} (f : A -> B) (P : A -> Prop)
    `{!forall x, Decision (P x)} (l : list A) :
  NoDup (map f l) -> NoDup (map f (filter P l)).
Proof.
  induction l as [|x l IH]; intros Hnd; [constructor|].
  change (map f (x :: l)) with (f x :: map f l) in Hnd.
  apply NoDup_cons in Hnd as [Hx Hnd].
  rewrite filter_cons. destruct (decide (P x)); [|auto].
  change (NoDup (f x :: map f (filter P l))). apply NoDup_cons. split; [|auto].
  intros Hin. apply Hx. apply list_elem_of_fmap in Hin as (y & -> & Hy).
  apply list_elem_of_fmap. exists y. split; [reflexivity|].
  apply list_elem_of_filter in Hy. tauto.
Qed.
End PorDia.

(** X12: in one run of the loop the chat receives at most six messages
    whose signals carry the same day: one for each monitored pair and
    action. *)
Theorem no_maximo_seis_por_dia :
  forall F (num : Numero F) (ciclos : list (Z * (string -> Leitura F))) (dia : string),
  length (filter (fun m => data_do_sinal (snd m) = dia)
                 (mensagens (alerta (executar ciclos novo_bot)))) <= 6.
Proof.
  intros F num ciclos dia.
  destruct (bot_inv_executar ciclos novo_bot bot_inv_novo) as ((Hnd & _) & _ & Hm & _).
  set (msgs := mensagens (alerta (executar ciclos novo_bot))) in *.
  set (do_dia := filter (fun m => data_do_sinal (snd m) = dia) msgs).
  set (chaves := map (fun pa : string * Acao =>
                        (fst pa ++ "_" ++ acao_str (snd pa) ++ "_" ++ dia)%string)
                     (par ← PARES_MONITORADOS; [(par, VENDA); (par, COMPRA)])).
  change 6 with (length chaves).
  rewrite <- (length_map (fun m => chave_unica (snd m)) do_dia).
  apply submseteq_length, NoDup_submseteq.
  - unfold do_dia. apply NoDup_fmap_filter, Hnd.
  - intros k Hk.
    apply list_elem_of_fmap in Hk as (m & -> & Hin).
    apply list_elem_of_filter in Hin as [Hd Hin].
    destruct (Hm m Hin) as (Hs & _). subst chaves. rewrite <- Hd.
    apply chave_de_par_monitorado, Hs.
Qed.

(** ** A run without delivery, and [main] *)

Section SemEntrega.
Context {F : Type} {num : Numero F}.

Lemma analisar_par_sem_entrega T par (l : Leitura F) (self : ReversaoBot F) :
  entregue (mundo l) = false ->
  alerta (analisar_par T par l self) = alerta self.
Proof.
  intros He. unfold analisar_par.
  destruct (limitado _ _ _ _); [reflexivity|].
  destruct (confirmar_sinal _ _ _) as [[s|]|e]; cbn; try reflexivity.
  rewrite enviar_sinal_falha by exact He. reflexivity.
Qed.

Lemma ciclo_sem_entrega T (ls : string -> Leitura F) (self : ReversaoBot F) :
  (forall par, par ∈ PARES_MONITORADOS -> entregue (mundo (ls par)) = false) ->
  alerta (ciclo T ls self) = alerta self.
Proof.
  intros H. unfold ciclo, PARES_MONITORADOS in *. cbn [foldl].
  rewrite !analisar_par_sem_entrega; [reflexivity| | |]; apply H;
    repeat constructor.
Qed.

Lemma executar_sem_entrega (ciclos : list (Z * (string -> Leitura F)))
    (self : ReversaoBot F) :
  (forall c par, c ∈ ciclos -> par ∈ PARES_MONITORADOS ->
                 entregue (mundo (snd c par)) = false) ->
  alerta (executar ciclos self) = alerta self.
Proof.
  revert self. induction ciclos as [|[T ls] resto IH]; intros self H; cbn.
  - reflexivity.
  - unfold executar in IH. rewrite IH.
    + apply ciclo_sem_entrega. intros par Hp.
      apply (H (T, ls) par); [constructor|exact Hp].
    + intros c par Hc Hp. apply H; [constructor; exact Hc|exact Hp].
Qed.
End SemEntrega.

(** X13: [main] checks that the two secrets are set, not that [CHAT_ID] is
    an integer.  Without a token or without a [CHAT_ID] it returns before
    the bot is built; with both, and a Telegram client that can be built,
    it runs the loop.  In a run whose [CHAT_ID] is set but is not an
    integer, as in any run in which every delivery fails, the bot never
    delivers a message, records no key and writes no audit line, whatever
    the market shows. *)
Theorem main_valida_so_a_presenca :
  forall F (num : Numero F) (token : string) (chat : ChatId)
         (construtor : result unit) (ciclos : list (Z * (string -> Leitura F))),
  token <> EmptyString ->
  (main None chat construtor ciclos = sem_configuracao /\
   main (Some EmptyString) chat construtor ciclos = sem_configuracao /\
   main (Some token) chat_ausente construtor ciclos = sem_configuracao) /\
  (chat <> chat_ausente ->
   main (Some token) chat construtor ciclos =
   match construtor with
   | Ok _ => em_execucao (executar ciclos novo_bot)
   | Raise e => erro_fatal e
   end) /\
  ((forall c par, c ∈ ciclos -> par ∈ PARES_MONITORADOS ->
                  CHAT_ID (mundo (snd c par)) = chat_invalido) ->
   alerta (executar ciclos novo_bot) = novo_alerta) /\
  ((forall c par, c ∈ ciclos -> par ∈ PARES_MONITORADOS ->
                  entregue (mundo (snd c par)) = false) ->
   alerta (executar ciclos novo_bot) = novo_alerta).
Proof.
  intros F num token chat construtor ciclos Ht.
  split; [|split; [|split]].
  - repeat split. destruct token; reflexivity.
  - intros Hc. destruct token; [contradiction|]. destruct chat; [contradiction| |];
      reflexivity.
  - intros Hc. apply executar_sem_entrega. intros c par Hin Hp.
    unfold entregue. rewrite (Hc c par Hin Hp). reflexivity.
  - apply executar_sem_entrega.
Qed.

Lemma main_valida_so_a_presenca_witness :
  let ciclos :=
    [(0%Z, fun _ : string =>
             {| relogio_teste := segundos 1;
                mercado := binance_fixo serie_resistencia velas_5m_sinal;
                relogio_texto := "31/01 10:00:00";
                mundo := {| CHAT_ID := chat_invalido; send_message := Ok tt;
                            escrita := Ok tt;
                            agora_iso := "2026-01-31T10:00:00" |};
                relogio_registro := segundos 2 |})] in
  main (Some "123456:ABC")%string chat_invalido (Ok tt) ciclos
  = em_execucao (executar ciclos novo_bot) /\
  alerta (executar ciclos novo_bot) = novo_alerta /\
  ultima_verificacao (executar ciclos novo_bot) !! "BTCUSDT" = Some (segundos 2).
Proof.
  intros ciclos.
  destruct (main_valida_so_a_presenca float _ "123456:ABC" chat_invalido (Ok tt) ciclos)
    as (_ & Hm & Ha & _); [discriminate|].
  split; [apply Hm; discriminate|]. split.
  - apply Ha. intros c par Hin _. apply list_elem_of_singleton in Hin. subst c.
    reflexivity.
  - vm_compute. reflexivity.
Defined.

(** ** The band calculator, all outcomes *)


(** ** The price text *)

Section Preco.

Lemma py_replace1_X_ponto (s : string) :
  sem_caractere "X" s = true ->
  py_replace1 "X" "." (py_replace1 "." "," (py_replace1 "," "X" s))
  = trocar_separadores s.
Proof.
  induction s as [|c s IH]; cbn [sem_caractere py_replace1 trocar_separadores];
    [reflexivity|].
  intros H. apply andb_prop in H as [Hc Hs]. rewrite (IH Hs). f_equal.
  destruct (Ascii.eqb c ",") eqn:E1.
  { reflexivity. }
  destruct (Ascii.eqb c ".") eqn:E2.
  { reflexivity. }
  apply negb_true_iff in Hc. rewrite Hc. reflexivity.
Qed.

Lemma length_trocar_separadores (s : string) :
  String.length (trocar_separadores s) = String.length s.
Proof.
  induction s as [|c s IH]; [reflexivity|].
  change (S (String.length (trocar_separadores s)) = S (String.length s)).
  f_equal. exact IH.
Qed.

Lemma sem_X_trocar_separadores (s : string) :
  sem_caractere "X" s = true -> sem_caractere "X" (trocar_separadores s) = true.
Proof.
  induction s as [|c s IH]; [reflexivity|].
  cbn [sem_caractere trocar_separadores]. intros H.
  apply andb_prop in H as [Hc Hs]. rewrite (IH Hs), andb_true_r.
  destruct (Ascii.eqb c ","); [reflexivity|].
  destruct (Ascii.eqb c "."); [reflexivity|exact Hc].
Qed.
End Preco.

(** X15: [formatar_preco] writes ["R$ "] and then the text of the value
    under [,.2f] with its commas turned into points and its point into a
    comma, as long as that text holds no ["X"], the character the three
    replacements go through; the text keeps its length. *)
Theorem formatar_preco_troca_separadores :
  forall F (formato : F -> string) (valor : F),
  sem_caractere "X" (formato valor) = true ->
  formatar_preco formato valor
  = ("R$ " ++ trocar_separadores (formato valor))%string /\
  String.length (formatar_preco formato valor) = 3 + String.length (formato valor) /\
  sem_caractere "X" (formatar_preco formato valor) = true.
Proof.
  intros F formato valor H.
  assert (E : formatar_preco formato valor
              = ("R$ " ++ trocar_separadores (formato valor))%string).
  { unfold formatar_preco. rewrite py_replace1_X_ponto; [reflexivity|exact H]. }
  rewrite E. split; [reflexivity|]. split.
  - change (3 + String.length (trocar_separadores (formato valor))
            = 3 + String.length (formato valor)).
    rewrite length_trocar_separadores. reflexivity.
  - apply (sem_X_trocar_separadores (formato valor) H).
Qed.

Lemma formatar_preco_troca_separadores_witness :
  formatar_preco (fun _ : float => "1,234,567.75"%string) 1234567.75%float
  = "R$ 1.234.567,75"%string.
Proof.
  apply (formatar_preco_troca_separadores float
           (fun _ => "1,234,567.75"%string) 1234567.75%float).
  reflexivity.
Defined.
